(** * Gym store backend: the catalog service of [main.py]

    A shallow embedding of the request handlers of [main.py] and of the
    record serialization they share, with the properties the
    specification states about them.

    - Stored records are Python dicts with string keys: [gmap string value].
    - [serialize_doc] is embedded twice: on dict values (what it computes)
      and on a heap of dict objects (what it mutates), and the two are
      related by [serialize_doc_obj_spec].
    - The handlers run against a document gateway ([database.py]), which is
      an interface here; an in-memory store implements it. *)

From Stdlib Require Import Ascii.
From Stdlib.Strings Require Import Byte.
From stdpp Require Import gmap strings list fin_maps pretty.

(** ** Python values found in a stored record *)

(** A naive [datetime.datetime], as the store's driver decodes dates. *)
Record datetime := Datetime {
  year : nat; month : nat; day : nat;
  hour : nat; minute : nat; second : nat; microsecond : nat
}.

(** The values of a record's fields. A float is carried as its [repr] text,
    which identifies it; [VOther] stands for any further stored value
    (embedded document, array, binary, ...) and carries its [str] text.
    Only [VDatetime] has an [isoformat] attribute. *)
Inductive value :=
| VNone
| VBool (b : bool)
| VInt (n : Z)
| VFloat (repr : string)
| VStr (s : string)
| VObjectId (oid : list Byte.byte)
| VDatetime (dt : datetime)
| VOther (text : string).

Abbreviation dict := (gmap string value).

(** *** Text conversions of the Python runtime *)

(** [s.rjust(w, "0")] for a string of digits. *)
Fixpoint zeros (n : nat) : string :=
  match n with
  | O => ""
  | S n' => String "0"%char (zeros n')
  end.

Definition zfill (w : nat) (s : string) : string :=
  zeros (w - String.length s) +:+ s.

(** ["%0wd" % n] *)
Definition fmt_d (w n : nat) : string := zfill w (pretty n).

Definition datetime_format (sep : string) (dt : datetime) : string :=
  fmt_d 4 (year dt) +:+ "-" +:+ fmt_d 2 (month dt) +:+ "-" +:+ fmt_d 2 (day dt)
  +:+ sep
  +:+ fmt_d 2 (hour dt) +:+ ":" +:+ fmt_d 2 (minute dt) +:+ ":" +:+ fmt_d 2 (second dt)
  +:+ (if Nat.eqb (microsecond dt) 0 then "" else "." +:+ fmt_d 6 (microsecond dt)).

(** [dt.isoformat()] *)
Definition isoformat (dt : datetime) : string := datetime_format "T" dt.

Definition hex_digit (n : N) : Ascii.ascii :=
  match n with
  | 0 => "0" | 1 => "1" | 2 => "2" | 3 => "3" | 4 => "4" | 5 => "5" | 6 => "6"
  | 7 => "7" | 8 => "8" | 9 => "9" | 10 => "a" | 11 => "b" | 12 => "c"
  | 13 => "d" | 14 => "e" | _ => "f"
  end%N%char.

(** [binascii.hexlify], which [ObjectId.__str__] returns. *)
Fixpoint hexlify (bs : list Byte.byte) : string :=
  match bs with
  | [] => ""
  | b :: bs' =>
      let n := Byte.to_N b in
      String (hex_digit (n / 16)) (String (hex_digit (n mod 16)) (hexlify bs'))
  end.

(** [str(v)] *)
Definition py_str (v : value) : string :=
  match v with
  | VNone => "None"
  | VBool true => "True"
  | VBool false => "False"
  | VInt n => pretty n
  | VFloat repr => repr
  | VStr s => s
  | VObjectId oid => hexlify oid
  | VDatetime dt => datetime_format " " dt
  | VOther text => text
  end.

(** [getattr(v, "isoformat")()] when [hasattr(v, "isoformat")]. *)
Definition isoformat_attr (v : value) : option string :=
  match v with
  | VDatetime dt => Some (isoformat dt)
  | _ => None
  end.

Definition hasattr_isoformat (v : value) : bool :=
  match isoformat_attr v with Some _ => true | None => false end.

(** ** [serialize_doc] on dict values *)

(** [not doc]: [None] and the empty dict are falsy. *)
Definition falsy (doc : option dict) : bool :=
  match doc with
  | None => true
  | Some d => Nat.eqb (size d) 0
  end.

(** Lines 26-27: [if "_id" in d: d["id"] = str(d.pop("_id"))]. *)
Definition rename_id (d : dict) : dict :=
  match d !! "_id" with
  | Some oid => <["id" := VStr (py_str oid)]> (delete "_id" d)
  | None => d
  end.

(** Lines 30-31, the body of the loop, for one item of the snapshot. *)
Definition convert_item (d : dict) (kv : string * value) : dict :=
  let (k, v) := kv in
  if hasattr_isoformat v
  then match isoformat_attr v with
       | Some s => <[k := VStr s]> d
       | None => d
       end
  else d.

(** Lines 29-31: the loop runs over [list(d.items())], a snapshot taken
    before the first assignment, and assigns into [d]. *)
Definition convert_dates (d : dict) : dict :=
  foldl convert_item d (map_to_list d).

Definition serialize_doc (doc : option dict) : option dict :=
  if falsy doc then doc
  else
    match doc with
    | None => doc
    | Some d0 =>
        let d := d0 in (* doc.copy() *)
        let d := rename_id d in
        let d := convert_dates d in
        Some d
    end.

Definition sample_oid : list Byte.byte :=
  [Byte.x50; Byte.x7f; Byte.x1f; Byte.x77; Byte.xbc; Byte.xf8;
   Byte.x6c; Byte.xd7; Byte.x99; Byte.x43; Byte.x90; Byte.x11].

Definition sample_created : datetime := Datetime 2024 3 9 8 5 0 0.

Definition sample_record : dict :=
  <["_id" := VObjectId sample_oid]>
  (<["title" := VStr "Kettlebell 16kg"]>
  (<["price" := VFloat "59.99"]>
  (<["in_stock" := VBool true]>
  (<["created_at" := VDatetime sample_created]> ∅)))).

(** A record that already has an ["id"] field next to its ["_id"]. *)
Definition legacy_record : dict :=
  <["id" := VInt 7]> sample_record.

(** The value a field ends with after the loop of lines 29-31. *)
Definition convert_value (v : value) : value :=
  match v with
  | VDatetime dt => VStr (isoformat dt)
  | _ => v
  end.


(** ** [serialize_doc] on dict objects

    Python passes dicts by reference. Here a dict object lives in a heap at
    a location; [None] as the result of a step means a dangling reference
    or a missing key, which the steps of [serialize_doc] never meet on a
    live argument. *)

Abbreviation heap := (gmap positive dict).

Definition obj (A : Type) : Type := heap → option (A * heap).

Global Instance obj_ret : MRet obj := λ A a h, Some (a, h).

Global Instance obj_bind : MBind obj := λ A B f m h,
  match m h with
  | Some (a, h') => f a h'
  | None => None
  end.

(** [len(d)] *)
Definition dict_len (l : positive) : obj nat := λ h,
  match h !! l with
  | Some d => Some (size d, h)
  | None => None
  end.

(** [d.copy()]: a new object with the same items. *)
Definition dict_copy (l : positive) : obj positive := λ h,
  match h !! l with
  | Some d => let l' := fresh (dom h) in Some (l', <[l' := d]> h)
  | None => None
  end.

(** [k in d] *)
Definition dict_contains (l : positive) (k : string) : obj bool := λ h,
  match h !! l with
  | Some d => Some (bool_decide (is_Some (d !! k)), h)
  | None => None
  end.

(** [d.pop(k)] *)
Definition dict_pop (l : positive) (k : string) : obj value := λ h,
  match h !! l with
  | Some d =>
      match d !! k with
      | Some v => Some (v, <[l := delete k d]> h)
      | None => None
      end
  | None => None
  end.

(** [d[k] = v] *)
Definition dict_setitem (l : positive) (k : string) (v : value) : obj unit := λ h,
  match h !! l with
  | Some d => Some ((), <[l := <[k := v]> d]> h)
  | None => None
  end.

(** [list(d.items())] *)
Definition dict_items (l : positive) : obj (list (string * value)) := λ h,
  match h !! l with
  | Some d => Some (map_to_list d, h)
  | None => None
  end.

(** [for x in xs: body(x)] *)
Fixpoint obj_for {A : Type} (xs : list A) (body : A → obj unit) : obj unit :=
  match xs with
  | [] => mret ()
  | x :: xs' => body x ;; obj_for xs' body
  end.

Definition serialize_doc_obj (doc : option positive) : obj (option positive) :=
  match doc with
  | None => mret doc
  | Some l =>
      n ← dict_len l;
      if Nat.eqb n 0 then mret doc
      else
        d ← dict_copy l;
        has_id ← dict_contains d "_id";
        (if has_id : bool
         then oid ← dict_pop d "_id"; dict_setitem d "id" (VStr (py_str oid))
         else mret ()) ;;
        items ← dict_items d;
        obj_for items (λ kv,
          let (k, v) := kv : string * value in
          if hasattr_isoformat v
          then match isoformat_attr v with
               | Some s => dict_setitem d k (VStr s)
               | None => mret ()
               end
          else mret ()) ;;
        mret (Some d)
  end.

(** A heap with the sample record at location 1 and an empty dict at 2. *)
Definition sample_heap : heap := <[1%positive := sample_record]> (<[2%positive := ∅]> ∅).

(** ** Exceptions, and computations that may raise *)

Inductive outcome (E A : Type) : Type :=
| Ok (a : A)
| Raised (e : E).
Arguments Ok {E A} a.
Arguments Raised {E A} e.

(** An exception raised by the gateway or by the store's driver: an
    instance of a subclass [cls] of [Exception]; [msg] is its [str]. *)
Inductive exn := Exception (cls : string) (msg : string).

(** [str(e)] *)
Definition str_exn (e : exn) : string :=
  match e with Exception _ msg => msg end.

(** What leaves a handler when it does not return: the [HTTPException] it
    raises, which the framework turns into a response with that status and
    detail, or an exception that escaped it. *)
Inductive handler_exn :=
| HTTPException (status_code : Z) (detail : string)
| Escaped (e : exn).

(** A computation over a state [S] that returns an [A] or raises an [E];
    the state changes made before an exception stay. *)
Definition io (S E A : Type) : Type := S → outcome E A * S.

Global Instance io_ret {S E} : MRet (io S E) := λ A a s, (Ok a, s).

Global Instance io_bind {S E} : MBind (io S E) := λ A B f m s,
  match m s with
  | (Ok a, s') => f a s'
  | (Raised e, s') => (Raised e, s')
  end.

(** [raise e] *)
Definition raise {S E A} (e : E) : io S E A := λ s, (Raised e, s).

(** [try: body / except Exception as e: handler(e)] *)
Definition try_except {S E E' A} (body : io S E A) (handler : E → io S E' A)
    : io S E' A := λ s,
  match body s with
  | (Ok a, s') => (Ok a, s')
  | (Raised e, s') => handler e s'
  end.

(** [for x in xs: body(x)] *)
Fixpoint io_for {S E A} (xs : list A) (body : A → io S E unit) : io S E unit :=
  match xs with
  | [] => mret ()
  | x :: xs' => body x ;; io_for xs' body
  end.

(** ** The document gateway *)

(** Modelled from the spec: [schemas.Product], which is not part of the
    sources; the five fields of section 3, the price a float carried as
    its [repr] text. *)
Record Product := {
  title : string;
  description : string;
  price : string;
  category : string;
  in_stock : bool
}.

(** The two functions [main.py] imports from [database], over the state
    [S] of the store behind them. *)
Record Gateway (S : Type) := {
  create_document : string → Product → io S exn string;
  get_documents : string → dict → option Z → io S exn (list dict)
}.
Arguments create_document {S} _ _ _.
Arguments get_documents {S} _ _ _ _.

(** ** The handlers of [main.py] *)

(** Truth value of a [str]. *)
Definition str_truthy (s : string) : bool :=
  match s with
  | EmptyString => false
  | String _ _ => true
  end.

(** Truth value of a list. *)
Definition list_truthy {A} (l : list A) : bool :=
  match l with
  | [] => false
  | _ :: _ => true
  end.

Definition sample_products : list Product := [
  {| title := "Adjustable Dumbbell (Pair)";
     description := "Space-saving adjustable dumbbells with quick-select weight system.";
     price := "249.99";
     category := "Strength";
     in_stock := true |};
  {| title := "Kettlebell 16kg";
     description := "Cast iron kettlebell with flat base and comfortable handle.";
     price := "59.99";
     category := "Strength";
     in_stock := true |};
  {| title := "Yoga Mat Pro";
     description := "Non-slip, 6mm cushioning yoga mat for comfort and stability.";
     price := "39.99";
     category := "Mobility";
     in_stock := true |};
  {| title := "Resistance Bands Set";
     description := "Set of 5 bands with varying resistance levels and door anchor.";
     price := "24.99";
     category := "Accessories";
     in_stock := true |};
  {| title := "Foldable Treadmill";
     description := "Compact treadmill with incline and app connectivity.";
     price := "699.0";
     category := "Cardio";
     in_stock := true |}
].

Section handlers.
Context {S : Type} (gw : Gateway S).

(** [except Exception as e: raise HTTPException(status_code=500, detail=str(e))] *)
Definition raise_500 {A} (e : exn) : io S handler_exn A :=
  raise (HTTPException 500 (str_exn e)).

(** [GET /api/products] *)
Definition list_products (category : option string) (limit : option Z)
    : io S handler_exn (list (option dict)) :=
  try_except
    (let filter_dict : dict :=
       match category with
       | Some c => if str_truthy c then {["category" := VStr c]} else ∅
       | None => ∅
       end in
     items ← get_documents gw "product" filter_dict limit;
     mret ((λ x, serialize_doc (Some x)) <$> items))
    raise_500.

(** [POST /api/products] *)
Definition create_product (product : Product) : io S handler_exn dict :=
  try_except
    (new_id ← create_document gw "product" product;
     mret ({["id" := VStr new_id]} : dict))
    raise_500.

(** [POST /api/seed] *)
Definition seed_products : io S handler_exn dict :=
  try_except
    (existing ← get_documents gw "product" ∅ (Some 1%Z);
     if list_truthy existing
     then mret ({["status" := VStr "ok";
                  "message" := VStr "Products already exist"]} : dict)
     else
       io_for sample_products
         (λ p, create_document gw "product" p ;; mret ()) ;;
       mret ({["status" := VStr "ok";
               "count" := VInt (Z.of_nat (length sample_products))]} : dict))
    raise_500.
End handlers.

(** *** Recording the calls a handler makes *)

Inductive call :=
| CallCreate (collection : string) (p : Product)
| CallList (collection : string) (filter_dict : dict) (limit : option Z).

(** The gateway [gw] with a log of the calls it received, oldest first. *)
Definition spy {S} (gw : Gateway S) : Gateway (S * list call) := {|
  create_document c p := λ sl,
    let (r, s') := create_document gw c p sl.1 in
    (r, (s', sl.2 ++ [CallCreate c p]));
  get_documents c f n := λ sl,
    let (r, s') := get_documents gw c f n sl.1 in
    (r, (s', sl.2 ++ [CallList c f n]))
|}.

(** *** An in-memory store *)

Global Instance byte_eq_dec : EqDecision Byte.byte.
Proof.
  intros x y. destruct (Byte.eqb x y) eqn:E.
  - left. by apply Byte.byte_dec_bl.
  - right. intros ->. by rewrite Byte.byte_dec_lb in E.
Defined.

Global Instance datetime_eq_dec : EqDecision datetime.
Proof. solve_decision. Defined.

Global Instance value_eq_dec : EqDecision value.
Proof. solve_decision. Defined.

(** Modelled from the spec: the store behind [database.py], which is not
    part of the sources. Section 4.1: named collections of records in
    insertion order, identifiers assigned by the store, failures when the
    store is unreachable or rejects a write (here: when it is full). *)
Record store := {
  reachable : bool;
  capacity : nat;
  next_id : nat;
  now : datetime;
  store_collections : gmap string (list dict)
}.

Definition byte_of_N (n : N) : Byte.byte :=
  default Byte.x00 (Byte.of_N (n mod 256)).

(** A 12-byte identifier, the counter in big-endian. *)
Definition oid_of_counter (n : nat) : list Byte.byte :=
  (λ i : N, byte_of_N (N.of_nat n / 256 ^ i)) <$>
  [11; 10; 9; 8; 7; 6; 5; 4; 3; 2; 1; 0]%N.

Definition product_fields (p : Product) : dict :=
  {[ "title" := VStr (title p);
     "description" := VStr (description p);
     "price" := VFloat (price p);
     "category" := VStr (category p);
     "in_stock" := VBool (in_stock p) ]}.

Definition unreachable_error : exn :=
  Exception "ServerSelectionTimeoutError" "localhost:27017: [Errno 111] Connection refused".

Definition full_error : exn :=
  Exception "WriteError" "cannot insert: the store is full".

(** Modelled from the spec: [database.create_document] (section 4.1). *)
Definition mem_create_document (c : string) (p : Product) : io store exn string := λ s,
  if negb (reachable s) then (Raised unreachable_error, s)
  else if capacity s <=? next_id s then (Raised full_error, s)
  else
    let oid := oid_of_counter (next_id s) in
    let doc : dict :=
      <["_id" := VObjectId oid]>
        (<["created_at" := VDatetime (now s)]> (product_fields p)) in
    (Ok (hexlify oid),
     {| reachable := reachable s;
        capacity := capacity s;
        next_id := next_id s + 1;
        now := now s;
        store_collections :=
          <[c := default [] (store_collections s !! c) ++ [doc]]>
            (store_collections s) |}).

(** A record matches an equality filter when it has every field of the
    filter with the filter's value. *)
Definition matches (f doc : dict) : bool :=
  bool_decide (map_Forall (λ k v, doc !! k = Some v) f).

(** Modelled from the spec: [database.get_documents] (section 4.1). *)
Definition mem_get_documents (c : string) (f : dict) (limit : option Z)
    : io store exn (list dict) := λ s,
  if negb (reachable s) then (Raised unreachable_error, s)
  else
    let found := List.filter (matches f) (default [] (store_collections s !! c)) in
    (Ok match limit with
        | Some n => take (Z.to_nat n) found
        | None => found
        end, s).

Definition mem_gateway : Gateway store := {|
  create_document := mem_create_document;
  get_documents := mem_get_documents
|}.

Definition empty_store : store := {|
  reachable := true;
  capacity := 100;
  next_id := 1;
  now := sample_created;
  store_collections := ∅
|}.

(** A store that takes three more records. *)
Definition small_store : store := {|
  reachable := true;
  capacity := 4;
  next_id := 1;
  now := sample_created;
  store_collections := ∅
|}.

Definition down_store : store := {|
  reachable := false;
  capacity := 100;
  next_id := 1;
  now := sample_created;
  store_collections := ∅
|}.

(** The empty store after a seed, and its records of one category. *)
Definition seeded_store : store :=
  (seed_products mem_gateway empty_store).2.

Definition strength_items : list dict :=
  List.filter (matches {["category" := VStr "Strength"]})
    (default [] (store_collections seeded_store !! "product")).

(** The filter list-products is specified to build: an equality filter on
    ["category"] when a category is given, no filter when it is absent or
    empty. *)
Definition category_filter (category : option string) : dict :=
  match category with
  | None => ∅
  | Some c => if decide (c = "") then ∅ else {["category" := VStr c]}
  end.

(** ** The status check [GET /test] *)

(** Reading an attribute of an object: its value, [AttributeError], or
    another exception raised by the lookup. *)
Inductive attr (A : Type) : Type :=
| AttrValue (a : A)
| AttrMissing
| AttrRaises (e : exn).
Arguments AttrValue {A} a.
Arguments AttrMissing {A}.
Arguments AttrRaises {A} e.

(** The global [db] of [database.py] as the status check uses it: its
    [name] attribute and what [list_collection_names()] does. *)
Record Database := {
  db_name : attr string;
  list_collection_names : outcome exn (list string)
}.

(** The response dict, with its six keys. *)
Record status := {
  backend : string;
  database : string;
  database_url : option string;
  database_name : option string;
  connection_status : string;
  collections : list string
}.

Definition assign_database {E} (v : string) : io status E unit := λ r,
  (Ok (), {| backend := backend r; database := v;
             database_url := database_url r; database_name := database_name r;
             connection_status := connection_status r;
             collections := collections r |}).

Definition assign_database_url {E} (v : option string) : io status E unit := λ r,
  (Ok (), {| backend := backend r; database := database r;
             database_url := v; database_name := database_name r;
             connection_status := connection_status r;
             collections := collections r |}).

Definition assign_database_name {E} (v : option string) : io status E unit := λ r,
  (Ok (), {| backend := backend r; database := database r;
             database_url := database_url r; database_name := v;
             connection_status := connection_status r;
             collections := collections r |}).

Definition assign_connection_status {E} (v : string) : io status E unit := λ r,
  (Ok (), {| backend := backend r; database := database r;
             database_url := database_url r; database_name := database_name r;
             connection_status := v;
             collections := collections r |}).

Definition assign_collections {E} (v : list string) : io status E unit := λ r,
  (Ok (), {| backend := backend r; database := database r;
             database_url := database_url r; database_name := database_name r;
             connection_status := connection_status r;
             collections := v |}).

(** [hasattr(db, "name")]: false on [AttributeError] only. *)
Definition hasattr_name {S} (db : Database) : io S exn bool := λ s,
  match db_name db with
  | AttrValue _ => (Ok true, s)
  | AttrMissing => (Ok false, s)
  | AttrRaises e => (Raised e, s)
  end.

(** [db.name] *)
Definition getattr_name {S} (db : Database) : io S exn string := λ s,
  match db_name db with
  | AttrValue a => (Ok a, s)
  | AttrMissing =>
      (Raised (Exception "AttributeError" "'Database' object has no attribute 'name'"), s)
  | AttrRaises e => (Raised e, s)
  end.

(** [db.list_collection_names()] *)
Definition call_list_collection_names {S} (db : Database) : io S exn (list string) :=
  λ s, (list_collection_names db, s).

(** *** Slicing a text

    A Python [str] is a sequence of code points. It is carried here as its
    UTF-8 encoding, as the literals of this file are: a character is a
    lead byte followed by its continuation bytes [10xxxxxx]. *)

Definition is_continuation (c : Ascii.ascii) : bool :=
  match c with
  | Ascii.Ascii _ _ _ _ _ _ b6 b7 => b7 && negb b6
  end.

(** [s[:n]]: the first [n] characters of [s], each with all its bytes. *)
Fixpoint str_take (n : nat) (s : string) : string :=
  match s with
  | EmptyString => EmptyString
  | String c s' =>
      if is_continuation c then String c (str_take n s')
      else
        match n with
        | O => EmptyString
        | S n' => String c (str_take n' s')
        end
  end.

(** [len(s)]: the number of characters of [s]. *)
Fixpoint str_len (s : string) : nat :=
  match s with
  | EmptyString => 0
  | String c s' => if is_continuation c then str_len s' else S (str_len s')
  end.

(** The number of bytes of the character a lead byte begins; 0 for a byte
    that begins none. *)
Definition utf8_width (c : Ascii.ascii) : nat :=
  match c with
  | Ascii.Ascii _ _ _ b3 b4 b5 b6 b7 =>
      if negb b7 then 1
      else if negb b6 then 0
      else if negb b5 then 2
      else if negb b4 then 3
      else if negb b3 then 4
      else 0
  end.

Definition payload (c : Ascii.ascii) : N := (N_of_ascii c `mod` 64)%N.

(** The code points a UTF-8 text encodes, against which [str_take] and
    [str_len] are checked. *)
Fixpoint utf8_decode (s : string) : option (list N) :=
  match s with
  | EmptyString => Some []
  | String c0 s1 =>
      match utf8_width c0 with
      | 1 => cons (N_of_ascii c0) <$> utf8_decode s1
      | 2 =>
          match s1 with
          | String c1 s2 =>
              if is_continuation c1
              then cons ((N_of_ascii c0 `mod` 32) * 64 + payload c1)%N
                     <$> utf8_decode s2
              else None
          | _ => None
          end
      | 3 =>
          match s1 with
          | String c1 (String c2 s3) =>
              if is_continuation c1 && is_continuation c2
              then cons ((N_of_ascii c0 `mod` 16) * 4096 + payload c1 * 64
                         + payload c2)%N <$> utf8_decode s3
              else None
          | _ => None
          end
      | 4 =>
          match s1 with
          | String c1 (String c2 (String c3 s4)) =>
              if is_continuation c1 && is_continuation c2 && is_continuation c3
              then cons ((N_of_ascii c0 `mod` 8) * 262144 + payload c1 * 4096
                         + payload c2 * 64 + payload c3)%N <$> utf8_decode s4
              else None
          | _ => None
          end
      | _ => None
      end
  end.

(** Truth value of [os.getenv(name)]. *)
Definition env_truthy (v : option string) : bool :=
  match v with
  | Some s => str_truthy s
  | None => false
  end.

Definition test_database (db : option Database) (getenv : string → option string)
    : outcome exn status :=
  let response := {|
    backend := "✅ Running";
    database := "❌ Not Available";
    database_url := None;
    database_name := None;
    connection_status := "Not Connected";
    collections := []
  |} in
  let body : io status exn unit :=
    try_except
      (match db with
       | Some db =>
           assign_database "✅ Available" ;;
           assign_database_url (Some "✅ Configured") ;;
           has_name ← hasattr_name db;
           name ← (if has_name : bool then getattr_name db else mret "✅ Connected");
           assign_database_name (Some name) ;;
           assign_connection_status "Connected" ;;
           try_except
             (collections ← call_list_collection_names db;
              assign_collections (take 10 collections) ;;
              assign_database "✅ Connected & Working")
             (λ e, assign_database ("⚠️  Connected but Error: " +:+ str_take 50 (str_exn e)))
       | None => assign_database "⚠️  Available but not initialized"
       end)
      (λ e, assign_database ("❌ Error: " +:+ str_take 50 (str_exn e))) ;;
    assign_database_url
      (Some (if env_truthy (getenv "DATABASE_URL") then "✅ Set" else "❌ Not Set")) ;;
    assign_database_name
      (Some (if env_truthy (getenv "DATABASE_NAME") then "✅ Set" else "❌ Not Set")) in
  match body response with
  | (Ok _, response) => Ok response
  | (Raised e, _) => Raised e
  end.

Definition healthy_db : Database := {|
  db_name := AttrValue "gymstore";
  list_collection_names :=
    Ok ["product"; "c01"; "c02"; "c03"; "c04"; "c05"; "c06"; "c07"; "c08";
        "c09"; "c10"; "c11"]
|}.

Definition long_message : string :=
  "0123456789012345678901234567890123456789012345678901234567890123456789".

Definition failing_db : Database := {|
  db_name := AttrValue "gymstore";
  list_collection_names := Raised (Exception "OperationFailure" long_message)
|}.

Definition broken_db : Database := {|
  db_name := AttrRaises (Exception "RuntimeError" long_message);
  list_collection_names := Ok []
|}.

(** A message of 60 characters, 120 bytes in UTF-8. *)
Definition accented_message : string :=
  "éééééééééééééééééééééééééééééééééééééééééééééééééééééééééééé".

Definition accented_db : Database := {|
  db_name := AttrValue "gymstore";
  list_collection_names := Raised (Exception "OperationFailure" accented_message)
|}.

Definition no_env (name : string) : option string := None.

(** The small store after the three creations it accepts. *)
Definition small_store_full : store :=
  (io_for (take 3 sample_products)
     (λ p, create_document mem_gateway "product" p ;; mret ()) small_store).2.

(** ** The remaining routes and further sample data *)

(** [GET /] *)
Definition read_root : dict :=
  {["message" := VStr "Gym Store Backend Running"]}.

(** [GET /api/hello] *)
Definition hello : dict :=
  {["message" := VStr "Hello from the backend API!"]}.

(** A record whose store-managed identifier is a date. *)
Definition dated_id_record : dict :=
  {["_id" := VDatetime sample_created; "title" := VStr "Yoga Mat Pro"]}.

(** A record as the API returns it: no ["_id"], no date. *)
Definition plain_record : dict :=
  {["id" := VStr "507f1f77bcf86cd799439011"; "title" := VStr "Yoga Mat Pro";
    "in_stock" := VBool true]}.

(** What list-products answers for the category ["Strength"]. *)
Definition strength_response : list (option dict) :=
  (λ x, serialize_doc (Some x)) <$> strength_items.

Definition jump_rope : Product := {|
  title := "Jump Rope";
  description := "Speed rope with ball bearings.";
  price := "9.5";
  category := "Cardio";
  in_stock := true
|}.

(** An environment with a database URL and an empty database name. *)
Definition sample_env (name : string) : option string :=
  if decide (name = "DATABASE_URL") then Some "mongodb://localhost:27017"
  else if decide (name = "DATABASE_NAME") then Some ""
  else None.

(** A handle with three collections, and one whose listing raises. *)
Definition short_db : Database := {|
  db_name := AttrValue "gymstore";
  list_collection_names := Ok ["product"; "order"; "user"]
|}.

(** A message of 30 characters, 60 bytes in UTF-8. *)
Definition short_accented_message : string :=
  "éééééééééééééééééééééééééééééé".

Definition timeout_db : Database := {|
  db_name := AttrMissing;
  list_collection_names := Raised (Exception "NetworkTimeout" short_accented_message)
|}.

(** The reports of the status check for these handles. *)
Definition sample_status : status := {|
  backend := "✅ Running";
  database := "✅ Connected & Working";
  database_url := Some "✅ Set";
  database_name := Some "❌ Not Set";
  connection_status := "Connected";
  collections := ["product"; "c01"; "c02"; "c03"; "c04"; "c05"; "c06"; "c07";
                  "c08"; "c09"]
|}.

Definition failing_status : status := {|
  backend := "✅ Running";
  database := "⚠️  Connected but Error: 01234567890123456789012345678901234567890123456789";
  database_url := Some "❌ Not Set";
  database_name := Some "❌ Not Set";
  connection_status := "Connected";
  collections := []
|}.

Definition short_status : status := {|
  backend := "✅ Running";
  database := "✅ Connected & Working";
  database_url := Some "❌ Not Set";
  database_name := Some "❌ Not Set";
  connection_status := "Connected";
  collections := ["product"; "order"; "user"]
|}.

Definition timeout_status : status := {|
  backend := "✅ Running";
  database := "⚠️  Connected but Error: éééééééééééééééééééééééééééééé";
  database_url := Some "❌ Not Set";
  database_name := Some "❌ Not Set";
  connection_status := "Connected";
  collections := []
|}.
(** * Properties *)

(** ** Checks on concrete records *)

Example py_str_oid : py_str (VObjectId sample_oid) = "507f1f77bcf86cd799439011".
Proof. reflexivity. Qed.

Example isoformat_sample : isoformat sample_created = "2024-03-09T08:05:00".
Proof. vm_compute. reflexivity. Qed.

Example isoformat_micro :
  isoformat (Datetime 987 12 31 23 59 59 1500) = "0987-12-31T23:59:59.001500".
Proof. vm_compute. reflexivity. Qed.

Example py_str_datetime : py_str (VDatetime sample_created) = "2024-03-09 08:05:00".
Proof. vm_compute. reflexivity. Qed.

Example py_str_int : py_str (VInt (-42)) = "-42".
Proof. vm_compute. reflexivity. Qed.

Example serialize_sample :
  serialize_doc (Some sample_record) =
  Some (<["id" := VStr "507f1f77bcf86cd799439011"]>
       (<["title" := VStr "Kettlebell 16kg"]>
       (<["price" := VFloat "59.99"]>
       (<["in_stock" := VBool true]>
       (<["created_at" := VStr "2024-03-09T08:05:00"]> ∅))))).
Proof. vm_compute. reflexivity. Qed.

(** ** What [serialize_doc] computes *)

Lemma falsy_Some (d : dict) : falsy (Some d) = true ↔ d = ∅.
Proof.
  simpl. rewrite Nat.eqb_eq. apply map_size_empty_iff.
Qed.

Lemma falsy_spec (doc : option dict) :
  falsy doc = true ↔ doc = None ∨ doc = Some ∅.
Proof.
  destruct doc as [d|].
  - rewrite falsy_Some. split.
    + intros ->. by right.
    + intros [?|[= ->]]; done.
  - split; [by left | done].
Qed.

Lemma convert_item_lookup (acc : dict) (k0 : string) (v0 : value) (k : string) :
  convert_item acc (k0, v0) !! k =
  if decide (k = k0)
  then match v0 with VDatetime dt => Some (VStr (isoformat dt)) | _ => acc !! k end
  else acc !! k.
Proof.
  unfold convert_item.
  destruct v0; simpl; try (case_decide; done).
  case_decide as Hk.
  - subst k. apply lookup_insert_eq.
  - by apply lookup_insert_ne.
Qed.

(** The loop over a snapshot [l] with distinct keys: a key of the snapshot
    that held a date now holds its text, any other key holds what the
    dict held before the loop. *)
Lemma foldl_convert_item_lookup (l : list (string * value)) (acc : dict) (k : string) :
  NoDup l.*1 →
  foldl convert_item acc l !! k =
  match (list_to_map l : dict) !! k with
  | Some (VDatetime dt) => Some (VStr (isoformat dt))
  | _ => acc !! k
  end.
Proof.
  revert acc. induction l as [|[k0 v0] l IH]; intros acc Hnd.
  - simpl. by rewrite lookup_empty.
  - apply NoDup_cons in Hnd as [Hk0 Hnd].
    change (foldl convert_item acc ((k0, v0) :: l))
      with (foldl convert_item (convert_item acc (k0, v0)) l).
    change (list_to_map ((k0, v0) :: l) : dict)
      with (<[k0 := v0]> (list_to_map l : dict)).
    rewrite (IH _ Hnd). clear IH.
    destruct (decide (k = k0)) as [->|Hne].
    + rewrite lookup_insert_eq.
      rewrite (not_elem_of_list_to_map_1 (M:=gmap string) l k0 Hk0).
      rewrite convert_item_lookup. by rewrite decide_True.
    + rewrite lookup_insert_ne by done.
      rewrite convert_item_lookup, decide_False by done. done.
Qed.

Lemma convert_dates_fmap (d : dict) : convert_dates d = convert_value <$> d.
Proof.
  apply map_eq. intros k. unfold convert_dates.
  rewrite foldl_convert_item_lookup by apply NoDup_fst_map_to_list.
  rewrite list_to_map_to_list, lookup_fmap.
  destruct (d !! k) as [[]|]; done.
Qed.

Lemma serialize_doc_Some (d : dict) :
  d ≠ ∅ → serialize_doc (Some d) = Some (convert_value <$> rename_id d).
Proof.
  intros Hd. unfold serialize_doc.
  destruct (falsy (Some d)) eqn:Hf.
  - by apply falsy_Some in Hf.
  - by rewrite convert_dates_fmap.
Qed.

Lemma rename_id_lookup_id (d : dict) (v : value) :
  d !! "_id" = Some v → rename_id d = <["id" := VStr (py_str v)]> (delete "_id" d).
Proof. intros H. unfold rename_id. by rewrite H. Qed.

Lemma rename_id_no_id (d : dict) : rename_id d !! "_id" = None.
Proof.
  unfold rename_id. destruct (d !! "_id") eqn:H; [|done].
  rewrite lookup_insert_ne by done. apply lookup_delete_eq.
Qed.

Lemma convert_value_no_attr (v : value) :
  isoformat_attr (convert_value v) = None.
Proof. by destruct v. Qed.

Lemma convert_value_idemp (v : value) :
  convert_value (convert_value v) = convert_value v.
Proof. by destruct v. Qed.

(** ** The serialization rule *)

(** C1: a record that has the store-managed field ["_id"] is serialized to
    a record without ["_id"], whose ["id"] is the text [str] gives for the
    value ["_id"] had; the other fields are those of the input, converted
    by the loop. *)
Theorem serialize_doc_renames_id (d : dict) (v : value) :
  d !! "_id" = Some v →
  ∃ out : dict,
    serialize_doc (Some d) = Some out
    ∧ out !! "_id" = None
    ∧ out !! "id" = Some (VStr (py_str v))
    ∧ ∀ k, k ≠ "_id" → k ≠ "id" → out !! k = convert_value <$> d !! k.
Proof.
  intros Hid.
  assert (d ≠ ∅) as Hne by (intros ->; by rewrite lookup_empty in Hid).
  eexists. split; [by apply serialize_doc_Some|].
  rewrite (rename_id_lookup_id d v Hid).
  repeat split.
  - rewrite lookup_fmap, lookup_insert_ne by done. by rewrite lookup_delete_eq.
  - by rewrite lookup_fmap, lookup_insert_eq.
  - intros k Hk1 Hk2.
    by rewrite lookup_fmap, lookup_insert_ne, lookup_delete_ne.
Qed.

Lemma serialize_doc_renames_id_witness :
  ∃ out : dict,
    serialize_doc (Some sample_record) = Some out
    ∧ out !! "_id" = None
    ∧ out !! "id" = Some (VStr "507f1f77bcf86cd799439011")
    ∧ ∀ k, k ≠ "_id" → k ≠ "id" → out !! k = convert_value <$> sample_record !! k.
Proof.
  apply (serialize_doc_renames_id sample_record (VObjectId sample_oid)).
  vm_compute. reflexivity.
Defined.

(** C2: for a non-empty record, every field present after the identifier
    was renamed is present in the result; a date is replaced by its
    [isoformat] text and any other value is the one it was. No field is
    added. *)
Theorem serialize_doc_converts_dates (d : dict) :
  d ≠ ∅ →
  ∃ out : dict,
    serialize_doc (Some d) = Some out
    ∧ dom out = dom (rename_id d)
    ∧ ∀ k v, rename_id d !! k = Some v →
        out !! k = Some match v with
                        | VDatetime dt => VStr (isoformat dt)
                        | _ => v
                        end.
Proof.
  intros Hne. eexists. split; [by apply serialize_doc_Some|]. split.
  - apply dom_fmap_L.
  - intros k v Hk. rewrite lookup_fmap, Hk. done.
Qed.

Lemma serialize_doc_converts_dates_witness :
  ∃ out : dict,
    serialize_doc (Some sample_record) = Some out
    ∧ dom out = dom (rename_id sample_record)
    ∧ ∀ k v, rename_id sample_record !! k = Some v →
        out !! k = Some match v with
                        | VDatetime dt => VStr (isoformat dt)
                        | _ => v
                        end.
Proof.
  apply (serialize_doc_converts_dates sample_record).
  intros H. apply (f_equal (λ m : dict, m !! "title")) in H.
  vm_compute in H. discriminate H.
Defined.

(** C3: serializing twice gives what serializing once gives, and no
    result has an ["_id"] field. *)
Theorem serialize_doc_idempotent (doc : option dict) :
  serialize_doc (serialize_doc doc) = serialize_doc doc
  ∧ ∀ out : dict, serialize_doc doc = Some out → out !! "_id" = None.
Proof.
  destruct (falsy doc) eqn:Hf.
  - unfold serialize_doc. rewrite Hf, Hf. split; [done|].
    intros out ->. apply falsy_Some in Hf as ->. apply lookup_empty.
  - destruct doc as [d|]; [|done].
    assert (d ≠ ∅) as Hne by (intros ->; done).
    rewrite (serialize_doc_Some d Hne).
    assert ((convert_value <$> rename_id d) !! "_id" = None) as Hno.
    { rewrite lookup_fmap, rename_id_no_id. done. }
    split.
    + assert (convert_value <$> rename_id d ≠ ∅) as Hne'.
      { rewrite fmap_empty_iff. unfold rename_id.
        destruct (d !! "_id"); [apply insert_non_empty | done]. }
      rewrite (serialize_doc_Some _ Hne'). f_equal.
      unfold rename_id at 1. rewrite Hno.
      rewrite <- map_fmap_compose. apply map_fmap_ext.
      intros k v _. apply convert_value_idemp.
    + by intros out [= <-].
Qed.

Lemma serialize_doc_idempotent_witness :
  serialize_doc (serialize_doc (Some sample_record)) = serialize_doc (Some sample_record)
  ∧ ∀ out : dict, serialize_doc (Some sample_record) = Some out → out !! "_id" = None.
Proof. apply (serialize_doc_idempotent (Some sample_record)). Defined.

(** C4: an absent record and the empty record are returned as they are. *)
Theorem serialize_doc_empty :
  serialize_doc None = None ∧ serialize_doc (Some ∅) = Some ∅.
Proof. split; reflexivity. Qed.

(** C10: when the input has ["_id"], the result has no ["_id"] key and its
    ["id"] is the text of the input's ["_id"]; what the input held under
    ["id"] is overwritten: the result is the one of the input without its
    ["id"] field. *)
Theorem serialize_doc_id_overwrites (d : dict) (v : value) :
  d !! "_id" = Some v →
  ∃ out : dict,
    serialize_doc (Some d) = Some out
    ∧ ("_id" ∉ dom out)
    ∧ out !! "id" = Some (VStr (py_str v))
    ∧ serialize_doc (Some (delete "id" d)) = Some out.
Proof.
  intros Hid.
  assert (d ≠ ∅) as Hne by (intros ->; by rewrite lookup_empty in Hid).
  assert (delete "id" d !! "_id" = Some v) as Hid'
    by (by rewrite lookup_delete_ne).
  assert (delete "id" d ≠ ∅) as Hne'
    by (intros E; by rewrite E, lookup_empty in Hid').
  eexists. split; [by apply serialize_doc_Some|].
  rewrite (serialize_doc_Some _ Hne').
  rewrite (rename_id_lookup_id d v Hid), (rename_id_lookup_id _ v Hid').
  repeat split.
  - rewrite not_elem_of_dom, lookup_fmap, lookup_insert_ne by done.
    by rewrite lookup_delete_eq.
  - by rewrite lookup_fmap, lookup_insert_eq.
  - by rewrite delete_delete, insert_delete_eq.
Qed.

Lemma serialize_doc_id_overwrites_witness :
  ∃ out : dict,
    serialize_doc (Some legacy_record) = Some out
    ∧ ("_id" ∉ dom out)
    ∧ out !! "id" = Some (VStr "507f1f77bcf86cd799439011")
    ∧ serialize_doc (Some (delete "id" legacy_record)) = Some out.
Proof.
  apply (serialize_doc_id_overwrites legacy_record (VObjectId sample_oid)).
  vm_compute. reflexivity.
Defined.

(** ** [serialize_doc] on objects: the argument is left as it was *)

Lemma obj_bind_Some {A B} (m : obj A) (f : A → obj B) (h h' : heap) (a : A) :
  m h = Some (a, h') → (m ≫= f) h = f a h'.
Proof. intros H. unfold mbind, obj_bind. by rewrite H. Qed.

(** The loop, run on the copy at [l']: the heap changes at [l'] only, where
    the dict is folded as by [convert_item]. *)
Lemma obj_for_convert (l' : positive) (items : list (string * value))
    (acc : dict) (h : heap) :
  obj_for items (λ kv,
      let (k, v) := kv : string * value in
      if hasattr_isoformat v
      then match isoformat_attr v with
           | Some s => dict_setitem l' k (VStr s)
           | None => mret ()
           end
      else mret ()) (<[l' := acc]> h)
  = Some ((), <[l' := foldl convert_item acc items]> h).
Proof.
  revert acc. induction items as [|[k v] items IH]; intros acc; [done|].
  cbn [obj_for foldl].
  erewrite obj_bind_Some; [apply IH|].
  unfold convert_item.
  destruct (hasattr_isoformat v); [|done].
  destruct (isoformat_attr v); [|done].
  unfold dict_setitem. by rewrite lookup_insert_eq, insert_insert_eq.
Qed.

Lemma serialize_doc_obj_spec (h : heap) (l : positive) (d : dict) :
  h !! l = Some d →
  serialize_doc_obj (Some l) h =
  if falsy (Some d) then Some (Some l, h)
  else Some (Some (fresh (dom h)),
             <[fresh (dom h) := convert_dates (rename_id d)]> h).
Proof.
  intros Hl. unfold serialize_doc_obj.
  erewrite obj_bind_Some by (unfold dict_len; by rewrite Hl).
  simpl. destruct (Nat.eqb (size d) 0); [done|].
  set (l' := fresh (dom h)).
  erewrite obj_bind_Some by (unfold dict_copy; by rewrite Hl).
  fold l'.
  erewrite obj_bind_Some
    by (unfold dict_contains; by rewrite lookup_insert_eq).
  assert (((if bool_decide (is_Some (d !! "_id"))
            then oid ← dict_pop l' "_id"; dict_setitem l' "id" (VStr (py_str oid))
            else mret ()) : obj unit) (<[l' := d]> h)
          = Some ((), <[l' := rename_id d]> h)) as Hren.
  { unfold rename_id. destruct (d !! "_id") as [v|] eqn:Hid.
    - rewrite bool_decide_eq_true_2 by eauto.
      erewrite obj_bind_Some
        by (unfold dict_pop; by rewrite lookup_insert_eq, Hid).
      unfold dict_setitem.
      by rewrite insert_insert_eq, lookup_insert_eq, insert_insert_eq.
    - rewrite bool_decide_eq_false_2; [done|]. by intros [? ?]. }
  erewrite obj_bind_Some by exact Hren.
  erewrite obj_bind_Some
    by (unfold dict_items; by rewrite lookup_insert_eq).
  erewrite obj_bind_Some by apply obj_for_convert.
  done.
Qed.

Example serialize_doc_obj_sample :
  serialize_doc_obj (Some 1%positive) sample_heap
  = Some (Some 3%positive,
          <[3%positive := convert_dates (rename_id sample_record)]> sample_heap).
Proof. vm_compute. reflexivity. Qed.

(** The empty dict is returned itself, not a copy of it. *)
Example serialize_doc_obj_empty :
  serialize_doc_obj (Some 2%positive) sample_heap = Some (Some 2%positive, sample_heap).
Proof. vm_compute. reflexivity. Qed.

(** C9: [serialize_doc] leaves its argument, and every other object of the
    heap, as it was; for a non-empty argument the result is a new object,
    distinct from the argument, that holds the serialized record. *)
Theorem serialize_doc_obj_frame (h : heap) (l : positive) (d : dict) :
  h !! l = Some d →
  ∃ (r : option positive) (h' : heap),
    serialize_doc_obj (Some l) h = Some (r, h')
    ∧ h' !! l = Some d
    ∧ (∀ l0 d0, h !! l0 = Some d0 → h' !! l0 = Some d0)
    ∧ (falsy (Some d) = false →
       ∃ l', r = Some l' ∧ l' ≠ l ∧ h !! l' = None
             ∧ h' !! l' = serialize_doc (Some d)).
Proof.
  intros Hl. rewrite (serialize_doc_obj_spec h l d Hl).
  assert (h !! fresh (dom h) = None) as Hfresh
    by (apply not_elem_of_dom, is_fresh).
  destruct (falsy (Some d)) eqn:Hf.
  - do 2 eexists. split; [done|]. repeat split; done.
  - do 2 eexists. split; [done|].
    assert (fresh (dom h) ≠ l) as Hne by (intros E; congruence).
    repeat split.
    + by rewrite lookup_insert_ne.
    + intros l0 d0 Hl0. rewrite lookup_insert_ne; [done|]. congruence.
    + intros _. eexists. repeat split; [done..|].
      rewrite lookup_insert_eq. unfold serialize_doc. by rewrite Hf.
Qed.

Lemma serialize_doc_obj_frame_witness :
  ∃ (r : option positive) (h' : heap),
    serialize_doc_obj (Some 1%positive) sample_heap = Some (r, h')
    ∧ h' !! 1%positive = Some sample_record
    ∧ (∀ l0 d0, sample_heap !! l0 = Some d0 → h' !! l0 = Some d0)
    ∧ (falsy (Some sample_record) = false →
       ∃ l', r = Some l' ∧ l' ≠ 1%positive ∧ sample_heap !! l' = None
             ∧ h' !! l' = serialize_doc (Some sample_record)).
Proof.
  apply (serialize_doc_obj_frame sample_heap 1%positive sample_record).
  vm_compute. reflexivity.
Defined.

(** ** The handlers *)

Lemma io_bind_Ok {S E A B} (m : io S E A) (f : A → io S E B) (s s' : S) (a : A) :
  m s = (Ok a, s') → (m ≫= f) s = f a s'.
Proof. intros H. unfold mbind, io_bind. by rewrite H. Qed.

Lemma io_bind_Raised {S E A B} (m : io S E A) (f : A → io S E B) (s s' : S) (e : E) :
  m s = (Raised e, s') → (m ≫= f) s = (Raised e, s').
Proof. intros H. unfold mbind, io_bind. by rewrite H. Qed.

Lemma try_except_Ok {S E E' A} (body : io S E A) (h : E → io S E' A) (s s' : S) (a : A) :
  body s = (Ok a, s') → try_except body h s = (Ok a, s').
Proof. intros H. unfold try_except. by rewrite H. Qed.

Lemma try_except_Raised {S E E' A} (body : io S E A) (h : E → io S E' A)
    (s s' : S) (e : E) :
  body s = (Raised e, s') → try_except body h s = h e s'.
Proof. intros H. unfold try_except. by rewrite H. Qed.

(** A body run under [except Exception as e: raise HTTPException(500, str(e))]
    returns what the body returns, or raises that [HTTPException]. *)
Lemma try_except_500 {S A} (body : io S exn A) (s : S) :
  (∃ a s', body s = (Ok a, s') ∧ try_except body raise_500 s = (Ok a, s'))
  ∨ (∃ e s', body s = (Raised e, s')
       ∧ try_except body raise_500 s = (Raised (HTTPException 500 (str_exn e)), s')).
Proof.
  unfold try_except. destruct (body s) as [[a|e] s'].
  - left. eauto.
  - right. eauto.
Qed.

Lemma try_except_500_no_escape {S A} (body : io S exn A) (s : S) (e : exn) :
  (try_except body raise_500 s).1 ≠ Raised (Escaped e).
Proof.
  destruct (try_except_500 body s) as [(a & s' & _ & ->)|(e' & s' & _ & ->)];
    simpl; congruence.
Qed.

(** The filter the handler builds is the specified one. *)
Lemma category_filter_code (category : option string) :
  match category with
  | Some c => if str_truthy c then {["category" := VStr c]} else ∅
  | None => ∅
  end = category_filter category.
Proof.
  destruct category as [[|a c]|]; done.
Qed.

(** The loop over a prefix that succeeds, then a creation that fails. *)
Lemma io_for_app_Raised {S E A} (body : A → io S E unit)
    (done_ : list A) (x : A) (rest : list A) (s1 s2 s3 : S) (e : E) :
  io_for done_ body s1 = (Ok (), s2) →
  body x s2 = (Raised e, s3) →
  io_for (done_ ++ x :: rest) body s1 = (Raised e, s3).
Proof.
  revert s1. induction done_ as [|y done_ IH]; intros s1 Hdone Hx.
  - injection Hdone as <-. simpl. by apply io_bind_Raised.
  - simpl in *. unfold mbind, io_bind in *.
    destruct (body y s1) as [[[]|e'] s1']; [|done].
    by apply IH.
Qed.

(** The creations of a loop, as the spy records them. *)
Lemma io_for_create_spy {S} (gw : Gateway S) (c : string) (ps : list Product)
    (s1 s2 : S) (log : list call) :
  io_for ps (λ p, create_document gw c p ;; mret ()) s1 = (Ok (), s2) →
  io_for ps (λ p, create_document (spy gw) c p ;; mret ()) (s1, log)
  = (Ok (), (s2, log ++ (CallCreate c <$> ps))).
Proof.
  revert s1 log. induction ps as [|p ps IH]; intros s1 log H.
  - injection H as <-. simpl. by rewrite app_nil_r.
  - simpl in *. unfold mbind, io_bind in *. simpl.
    destruct (create_document gw c p s1) as [[i|e] s1']; [|done].
    simpl in *. rewrite (IH _ _ H). by rewrite <- app_assoc.
Qed.

(** C6: list-products makes one gateway call, listing the ["product"]
    collection with the specified category filter and the given limit, and
    returns the serialized records, as many and in the order the gateway
    returned them. *)
Theorem list_products_spec {S} (gw : Gateway S) (category : option string)
    (limit : option Z) (s s' : S) (items : list dict) :
  get_documents gw "product" (category_filter category) limit s = (Ok items, s') →
  ∃ out : list (option dict),
    list_products (spy gw) category limit (s, [])
    = (Ok out, (s', [CallList "product" (category_filter category) limit]))
    ∧ length out = length items
    ∧ ∀ i x, items !! i = Some x → out !! i = Some (serialize_doc (Some x)).
Proof.
  intros Hget. eexists. split; [|split].
  - unfold list_products. rewrite category_filter_code.
    apply try_except_Ok.
    erewrite io_bind_Ok; [reflexivity|].
    simpl. by rewrite Hget.
  - by rewrite length_fmap.
  - intros i x Hi. by rewrite list_lookup_fmap, Hi.
Qed.

Lemma list_products_spec_witness :
  ∃ out : list (option dict),
    list_products (spy mem_gateway) (Some "Strength") (Some 10%Z) (seeded_store, [])
    = (Ok out, (seeded_store,
                [CallList "product" (category_filter (Some "Strength")) (Some 10%Z)]))
    ∧ length out = length strength_items
    ∧ ∀ i x, strength_items !! i = Some x → out !! i = Some (serialize_doc (Some x)).
Proof.
  apply (list_products_spec mem_gateway (Some "Strength") (Some 10%Z)
           seeded_store seeded_store strength_items).
  vm_compute. reflexivity.
Defined.

(** Two of the five sample products are in the category ["Strength"]. *)
Example list_products_strength :
  (λ o : option dict, o ≫= (λ d, d !! "title"))
    <$> match (list_products mem_gateway (Some "Strength") None seeded_store).1 with
        | Ok out => out
        | Raised _ => []
        end
  = [Some (VStr "Adjustable Dumbbell (Pair)"); Some (VStr "Kettlebell 16kg")].
Proof. vm_compute. reflexivity. Qed.

(** C5: seed lists the ["product"] collection with the empty filter and
    limit 1. When a record comes back it makes no further call and returns
    the no-op status. When none comes back it creates the five sample
    products, in their order, and returns their number, 5. *)
Theorem seed_products_spec {S} (gw : Gateway S) (s s1 : S) (existing : list dict) :
  get_documents gw "product" ∅ (Some 1%Z) s = (Ok existing, s1) →
  title <$> sample_products =
    ["Adjustable Dumbbell (Pair)"; "Kettlebell 16kg"; "Yoga Mat Pro";
     "Resistance Bands Set"; "Foldable Treadmill"]
  ∧ (existing ≠ [] →
     seed_products (spy gw) (s, [])
     = (Ok {["status" := VStr "ok"; "message" := VStr "Products already exist"]},
        (s1, [CallList "product" ∅ (Some 1%Z)])))
  ∧ (existing = [] →
     ∀ s2,
       io_for sample_products (λ p, create_document gw "product" p ;; mret ()) s1
       = (Ok (), s2) →
       seed_products (spy gw) (s, [])
       = (Ok {["status" := VStr "ok"; "count" := VInt 5]},
          (s2, CallList "product" ∅ (Some 1%Z)
               :: (CallCreate "product" <$> sample_products)))).
Proof.
  intros Hget. split; [reflexivity|]. split.
  - intros Hex. unfold seed_products. apply try_except_Ok.
    erewrite io_bind_Ok by (simpl; by rewrite Hget).
    destruct existing; done.
  - intros -> s2 Hloop. unfold seed_products. apply try_except_Ok.
    erewrite io_bind_Ok by (simpl; by rewrite Hget).
    cbn [list_truthy].
    erewrite io_bind_Ok by (by apply io_for_create_spy).
    done.
Qed.

Lemma seed_products_spec_witness :
  seed_products (spy mem_gateway) (empty_store, [])
  = (Ok {["status" := VStr "ok"; "count" := VInt 5]},
     (seeded_store, CallList "product" ∅ (Some 1%Z)
                    :: (CallCreate "product" <$> sample_products)))
  ∧ seed_products (spy mem_gateway) (seeded_store, [])
    = (Ok {["status" := VStr "ok"; "message" := VStr "Products already exist"]},
       (seeded_store, [CallList "product" ∅ (Some 1%Z)])).
Proof.
  split.
  - destruct (seed_products_spec mem_gateway empty_store empty_store [])
      as (_ & _ & H); [vm_compute; reflexivity|].
    apply H; [reflexivity | vm_compute; reflexivity].
  - destruct (seed_products_spec mem_gateway seeded_store seeded_store
                (take 1 (default [] (store_collections seeded_store !! "product"))))
      as (_ & H & _); [vm_compute; reflexivity|].
    apply H. intros E. apply (f_equal length) in E.
    vm_compute in E. discriminate E.
Defined.

(** Seeding the empty store puts the five products in it, in order. *)
Example seed_empty_store :
  (seed_products mem_gateway empty_store).1
  = Ok {["status" := VStr "ok"; "count" := VInt 5]}
  ∧ (λ d : dict, d !! "title")
      <$> default [] (store_collections seeded_store !! "product")
    = [Some (VStr "Adjustable Dumbbell (Pair)"); Some (VStr "Kettlebell 16kg");
       Some (VStr "Yoga Mat Pro"); Some (VStr "Resistance Bands Set");
       Some (VStr "Foldable Treadmill")].
Proof. split; vm_compute; reflexivity. Qed.

(** Seeding again changes nothing. *)
Example seed_seeded_store :
  seed_products mem_gateway seeded_store
  = (Ok {["status" := VStr "ok"; "message" := VStr "Products already exist"]},
     seeded_store).
Proof. vm_compute. reflexivity. Qed.

(** C7: a failure of the gateway during list-products, create-product or
    seed leaves the handler as [HTTPException] with status 500 and the
    text of the failure as detail; no exception of the gateway escapes any
    of the three handlers. *)
Theorem gateway_failure_is_500 {S} (gw : Gateway S) :
  (∀ category limit s e s',
     get_documents gw "product" (category_filter category) limit s = (Raised e, s') →
     list_products gw category limit s
     = (Raised (HTTPException 500 (str_exn e)), s'))
  ∧ (∀ p s e s',
       create_document gw "product" p s = (Raised e, s') →
       create_product gw p s = (Raised (HTTPException 500 (str_exn e)), s'))
  ∧ (∀ s e s',
       get_documents gw "product" ∅ (Some 1%Z) s = (Raised e, s') →
       seed_products gw s = (Raised (HTTPException 500 (str_exn e)), s'))
  ∧ (∀ s s1 created p rest s2 e s3,
       get_documents gw "product" ∅ (Some 1%Z) s = (Ok [], s1) →
       sample_products = created ++ p :: rest →
       io_for created (λ p, create_document gw "product" p ;; mret ()) s1
       = (Ok (), s2) →
       create_document gw "product" p s2 = (Raised e, s3) →
       seed_products gw s = (Raised (HTTPException 500 (str_exn e)), s3))
  ∧ (∀ category limit s e,
       (list_products gw category limit s).1 ≠ Raised (Escaped e))
  ∧ (∀ p s e, (create_product gw p s).1 ≠ Raised (Escaped e))
  ∧ (∀ s e, (seed_products gw s).1 ≠ Raised (Escaped e)).
Proof.
  repeat split.
  - intros category limit s e s' Hget. unfold list_products.
    rewrite category_filter_code.
    erewrite try_except_Raised; [reflexivity|].
    by apply io_bind_Raised.
  - intros p s e s' Hc. unfold create_product.
    erewrite try_except_Raised; [reflexivity|].
    by apply io_bind_Raised.
  - intros s e s' Hget. unfold seed_products.
    erewrite try_except_Raised; [reflexivity|].
    by apply io_bind_Raised.
  - intros s s1 created p rest s2 e s3 Hget Hsplit Hcreated Hp.
    unfold seed_products.
    erewrite try_except_Raised; [reflexivity|].
    erewrite io_bind_Ok by exact Hget.
    cbn [list_truthy]. apply io_bind_Raised.
    rewrite Hsplit. eapply io_for_app_Raised; [exact Hcreated|].
    by apply io_bind_Raised.
  - intros. apply try_except_500_no_escape.
  - intros. apply try_except_500_no_escape.
  - intros. apply try_except_500_no_escape.
Qed.

Lemma gateway_failure_is_500_witness :
  list_products mem_gateway (Some "Cardio") (Some 3%Z) down_store
  = (Raised (HTTPException 500 "localhost:27017: [Errno 111] Connection refused"),
     down_store)
  ∧ seed_products mem_gateway down_store
    = (Raised (HTTPException 500 "localhost:27017: [Errno 111] Connection refused"),
       down_store)
  ∧ seed_products mem_gateway small_store
    = (Raised (HTTPException 500 "cannot insert: the store is full"),
       small_store_full).
Proof.
  destruct (gateway_failure_is_500 mem_gateway) as (Hlist & _ & Hseed & Hloop & _).
  split; [|split].
  - apply (Hlist (Some "Cardio") (Some 3%Z) down_store unreachable_error down_store).
    vm_compute. reflexivity.
  - apply (Hseed down_store unreachable_error down_store).
    vm_compute. reflexivity.
  - apply (Hloop small_store small_store (take 3 sample_products)
             {| title := "Resistance Bands Set";
                description := "Set of 5 bands with varying resistance levels and door anchor.";
                price := "24.99";
                category := "Accessories";
                in_stock := true |}
             (drop 4 sample_products) small_store_full full_error small_store_full).
    + vm_compute. reflexivity.
    + reflexivity.
    + vm_compute. reflexivity.
    + vm_compute. reflexivity.
Defined.

Example list_products_down :
  list_products mem_gateway None None down_store
  = (Raised (HTTPException 500 "localhost:27017: [Errno 111] Connection refused"),
     down_store).
Proof. vm_compute. reflexivity. Qed.

Example create_product_down :
  (create_product mem_gateway
     {| title := "Jump Rope"; description := ""; price := "9.5";
        category := "Cardio"; in_stock := true |} down_store).1
  = Raised (HTTPException 500 "localhost:27017: [Errno 111] Connection refused").
Proof. vm_compute. reflexivity. Qed.

(** The fourth creation fails on a store that takes three records. *)
Example seed_small_store :
  (seed_products mem_gateway small_store).1
  = Raised (HTTPException 500 "cannot insert: the store is full")
  ∧ length (default [] (store_collections
                          (seed_products mem_gateway small_store).2 !! "product")) = 3.
Proof. split; vm_compute; reflexivity. Qed.

(** ** The status check *)

Example utf8_decode_sample :
  utf8_decode "é✅a😀" = Some [233; 9989; 97; 128512]%N.
Proof. vm_compute. reflexivity. Qed.

Example str_take_sample :
  str_take 2 "é✅a😀" = "é✅" ∧ str_take 0 "é✅a😀" = ""
  ∧ str_take 9 "é✅a😀" = "é✅a😀" ∧ str_len "é✅a😀" = 4.
Proof. vm_compute. done. Qed.

Lemma utf8_width_lead (c : Ascii.ascii) : utf8_width c ≠ 0 → is_continuation c = false.
Proof. destruct c as [? ? ? b3 b4 b5 [] []]; simpl; done. Qed.

Lemma str_take_continuation (n : nat) (c : Ascii.ascii) (s : string) :
  is_continuation c = true → str_take n (String c s) = String c (str_take n s).
Proof. intros H. simpl. by rewrite H. Qed.

Lemma str_take_lead (n : nat) (c : Ascii.ascii) (s : string) :
  is_continuation c = false →
  str_take (S n) (String c s) = String c (str_take n s).
Proof. intros H. simpl. by rewrite H. Qed.

Lemma str_take_0_lead (c : Ascii.ascii) (s : string) :
  is_continuation c = false → str_take 0 (String c s) = "".
Proof. intros H. simpl. by rewrite H. Qed.

Lemma utf8_decode_take_aux (m : nat) :
  ∀ (s : string) (n : nat) (cps : list N),
    String.length s ≤ m →
    utf8_decode s = Some cps →
    utf8_decode (str_take n s) = Some (take n cps).
Proof.
  induction m as [|m IH]; intros s n cps Hlen Hdec.
  - destruct s; [|simpl in Hlen; lia]. injection Hdec as <-. by destruct n.
  - destruct s as [|c0 s1]; [injection Hdec as <-; by destruct n|].
    cbn [utf8_decode] in Hdec.
    destruct (utf8_width c0) as [|[|[|[|[|w]]]]] eqn:Hw; try done.
    all: assert (is_continuation c0 = false) as Hc0
      by (apply utf8_width_lead; by rewrite Hw).
    all: destruct n as [|n];
      [rewrite (str_take_0_lead _ _ Hc0);
       destruct cps; [done|]; done|].
    all: rewrite (str_take_lead _ _ _ Hc0).
    + destruct (utf8_decode s1) as [cps1|] eqn:H1; [|done].
      injection Hdec as <-. cbn [utf8_decode]. rewrite Hw.
      rewrite (IH s1 n cps1); [done| simpl in Hlen; lia | done].
    + destruct s1 as [|c1 s2]; [done|].
      destruct (is_continuation c1) eqn:Hc1; [|done].
      destruct (utf8_decode s2) as [cps2|] eqn:H2; [|done].
      injection Hdec as <-.
      rewrite (str_take_continuation _ _ _ Hc1).
      cbn [utf8_decode]. rewrite Hw, Hc1.
      rewrite (IH s2 n cps2); [done| simpl in Hlen; lia | done].
    + destruct s1 as [|c1 [|c2 s3]]; [done..|].
      destruct (is_continuation c1) eqn:Hc1; [|done].
      destruct (is_continuation c2) eqn:Hc2; [|done].
      destruct (utf8_decode s3) as [cps3|] eqn:H3; [|done].
      injection Hdec as <-.
      rewrite (str_take_continuation _ _ _ Hc1), (str_take_continuation _ _ _ Hc2).
      cbn [utf8_decode]. rewrite Hw, Hc1, Hc2.
      rewrite (IH s3 n cps3); [done| simpl in Hlen; lia | done].
    + destruct s1 as [|c1 [|c2 [|c3 s4]]]; [done..|].
      destruct (is_continuation c1) eqn:Hc1; [|done].
      destruct (is_continuation c2) eqn:Hc2; [|done].
      destruct (is_continuation c3) eqn:Hc3; [|done].
      destruct (utf8_decode s4) as [cps4|] eqn:H4; [|done].
      injection Hdec as <-.
      rewrite (str_take_continuation _ _ _ Hc1), (str_take_continuation _ _ _ Hc2),
        (str_take_continuation _ _ _ Hc3).
      cbn [utf8_decode]. rewrite Hw, Hc1, Hc2, Hc3.
      rewrite (IH s4 n cps4); [done| simpl in Hlen; lia | done].
Qed.

(** Slicing the text is slicing its code points. *)
Lemma utf8_decode_take (s : string) (n : nat) (cps : list N) :
  utf8_decode s = Some cps →
  utf8_decode (str_take n s) = Some (take n cps).
Proof. by apply (utf8_decode_take_aux (String.length s)). Qed.

Lemma str_take_len (n : nat) (s : string) :
  str_len (str_take n s) = n `min` str_len s.
Proof.
  revert n. induction s as [|c s IH]; intros n; [by destruct n|].
  simpl. destruct (is_continuation c) eqn:Hc.
  - simpl. rewrite Hc. apply IH.
  - destruct n as [|n]; [done|]. simpl. rewrite Hc. by rewrite IH.
Qed.

Lemma str_take_prefix (n : nat) (s : string) :
  ∃ rest, s = str_take n s +:+ rest.
Proof.
  revert n. induction s as [|c s IH]; intros n; [by exists ""|].
  simpl. destruct (is_continuation c).
  - destruct (IH n) as [rest Hrest]. exists rest.
    change (String c s = String c (str_take n s +:+ rest)). by f_equal.
  - destruct n as [|n]; [by exists (String c s)|].
    destruct (IH n) as [rest Hrest]. exists rest.
    change (String c s = String c (str_take n s +:+ rest)). by f_equal.
Qed.

(** C8: the status check returns a response whatever the store does. The
    collection list has at most 10 names. The ["database"] field tells what
    happened: when listing the collections raised, or when reading the
    handle raised, it ends with the first 50 characters of the exception's
    message: a prefix of the message whose code points are the first 50 of
    the message's. *)
Theorem test_database_never_fails (db : option Database)
    (getenv : string → option string) :
  ∃ r : status,
    test_database db getenv = Ok r
    ∧ length (collections r) ≤ 10
    ∧ match db with
      | None => database r = "⚠️  Available but not initialized"
      | Some d =>
          match db_name d, list_collection_names d with
          | AttrRaises e, _ =>
              database r = "❌ Error: " +:+ str_take 50 (str_exn e)
          | _, Raised e =>
              database r = "⚠️  Connected but Error: " +:+ str_take 50 (str_exn e)
          | _, Ok names =>
              database r = "✅ Connected & Working" ∧ collections r = take 10 names
          end
      end
    ∧ ∀ e : exn,
        (∃ rest, str_exn e = str_take 50 (str_exn e) +:+ rest)
        ∧ str_len (str_take 50 (str_exn e)) = 50 `min` str_len (str_exn e)
        ∧ ∀ cps, utf8_decode (str_exn e) = Some cps →
                 utf8_decode (str_take 50 (str_exn e)) = Some (take 50 cps).
Proof.
  assert (∀ e : exn,
    (∃ rest, str_exn e = str_take 50 (str_exn e) +:+ rest)
    ∧ str_len (str_take 50 (str_exn e)) = 50 `min` str_len (str_exn e)
    ∧ ∀ cps, utf8_decode (str_exn e) = Some cps →
             utf8_decode (str_take 50 (str_exn e)) = Some (take 50 cps)) as Htake.
  { intros e. split; [apply str_take_prefix|].
    split; [apply str_take_len|]. intros cps. apply utf8_decode_take. }
  destruct db as [[name names]|].
  - destruct name as [a| |e]; destruct names as [ns|e'];
      (eexists; split;
        [cbv -[take str_take str_exn env_truthy String.append]; reflexivity|]);
      cbn [collections database];
      (split; [|split; [|exact Htake]]);
      rewrite ?length_take; cbn [length]; first [lia | done].
  - eexists. split; [reflexivity|]. cbn [collections database].
    split; [|split; [|exact Htake]]; cbn [length]; first [lia | done].
Qed.

Lemma test_database_never_fails_witness :
  ∃ r : status,
    test_database (Some accented_db) no_env = Ok r
    ∧ length (collections r) ≤ 10
    ∧ database r
      = "⚠️  Connected but Error: éééééééééééééééééééééééééééééééééééééééééééééééééé"
    ∧ utf8_decode (str_take 50 accented_message) = Some (replicate 50 233%N).
Proof.
  destruct (test_database_never_fails (Some accented_db) no_env)
    as (r & Hr & Hlen & Hdb & Htake).
  exists r. split; [exact Hr|]. split; [exact Hlen|].
  split; [exact Hdb|].
  destruct (Htake (Exception "OperationFailure" accented_message))
    as (_ & _ & Hdec).
  apply (Hdec (replicate 60 233%N)). vm_compute. reflexivity.
Defined.

Example test_database_healthy :
  test_database (Some healthy_db) no_env
  = Ok {| backend := "✅ Running";
          database := "✅ Connected & Working";
          database_url := Some "❌ Not Set";
          database_name := Some "❌ Not Set";
          connection_status := "Connected";
          collections := ["product"; "c01"; "c02"; "c03"; "c04"; "c05"; "c06";
                          "c07"; "c08"; "c09"] |}.
Proof. vm_compute. reflexivity. Qed.

Example test_database_failing :
  test_database (Some failing_db) no_env
  = Ok {| backend := "✅ Running";
          database := "⚠️  Connected but Error: 01234567890123456789012345678901234567890123456789";
          database_url := Some "❌ Not Set";
          database_name := Some "❌ Not Set";
          connection_status := "Connected";
          collections := [] |}.
Proof. vm_compute. reflexivity. Qed.

(** Reading [db.name] raised: the assignments made before it stay. *)
Example test_database_broken :
  test_database (Some broken_db) no_env
  = Ok {| backend := "✅ Running";
          database := "❌ Error: 01234567890123456789012345678901234567890123456789";
          database_url := Some "❌ Not Set";
          database_name := Some "❌ Not Set";
          connection_status := "Not Connected";
          collections := [] |}.
Proof. vm_compute. reflexivity. Qed.

(** * Further properties of the code *)

(** Closed equations are decided by evaluation. *)
Ltac vm_refl :=
  lazymatch goal with
  | |- ?a = _ => vm_cast_no_check (@eq_refl _ a)
  end.

(** ** More on the serialization rule *)

Lemma serialize_doc_cases (doc : option dict) (out : dict) :
  serialize_doc doc = Some out →
  (doc = Some ∅ ∧ out = ∅)
  ∨ ∃ d, doc = Some d ∧ d ≠ ∅ ∧ out = convert_value <$> rename_id d.
Proof.
  intros H. destruct doc as [d|]; [|done].
  destruct (decide (d = ∅)) as [->|Hne].
  - left. by injection H as <-.
  - right. exists d. rewrite (serialize_doc_Some d Hne) in H.
    by injection H as <-.
Qed.

Lemma convert_value_fixed (v : value) :
  convert_value v = v ↔ hasattr_isoformat v = false.
Proof. destruct v; split; done. Qed.

Lemma rename_id_dom (d : dict) :
  dom (rename_id d) =
  if decide ("_id" ∈ dom d) then {["id"]} ∪ (dom d ∖ {["_id"]}) else dom d.
Proof.
  unfold rename_id. destruct (d !! "_id") as [v|] eqn:Hid.
  - rewrite decide_True by (apply elem_of_dom; eauto).
    by rewrite dom_insert_L, dom_delete_L.
  - rewrite decide_False; [done|]. by apply not_elem_of_dom.
Qed.

Lemma rename_id_size (d : dict) :
  size (rename_id d) =
  if decide ("_id" ∈ dom d ∧ "id" ∈ dom d) then size d - 1 else size d.
Proof.
  unfold rename_id. destruct (d !! "_id") as [v|] eqn:Hid.
  - rewrite map_size_insert, lookup_delete_ne by done.
    rewrite map_size_delete, Hid.
    assert (size d ≠ 0) as Hsz.
    { intros Hz. apply map_size_empty_iff in Hz. subst d.
      by rewrite lookup_empty in Hid. }
    destruct (d !! "id") as [w|] eqn:Hw.
    + rewrite decide_True; [simpl; lia|].
      split; apply elem_of_dom; eauto.
    + rewrite decide_False; [simpl; lia|].
      intros [_ H%elem_of_dom]. rewrite Hw in H. by destruct H.
  - rewrite decide_False; [done|].
    intros [H%elem_of_dom _]. rewrite Hid in H. by destruct H.
Qed.

(** X1: whatever the input, no field of a serialized record holds a value
    with an [isoformat] attribute. *)
Theorem serialize_doc_no_dates (doc : option dict) (out : dict)
    (k : string) (v : value) :
  serialize_doc doc = Some out →
  out !! k = Some v →
  hasattr_isoformat v = false.
Proof.
  intros Hs Hk.
  destruct (serialize_doc_cases doc out Hs) as [[_ ->]|(d & _ & _ & ->)].
  - by rewrite lookup_empty in Hk.
  - rewrite lookup_fmap in Hk.
    destruct (rename_id d !! k) as [v0|]; [|done].
    injection Hk as <-. by destruct v0.
Qed.

Lemma serialize_doc_no_dates_witness :
  serialize_doc (Some sample_record) = Some (convert_dates (rename_id sample_record))
  ∧ hasattr_isoformat (VStr "2024-03-09T08:05:00") = false.
Proof.
  assert (serialize_doc (Some sample_record)
          = Some (convert_dates (rename_id sample_record))) as Hs
    by (vm_refl).
  split; [exact Hs|].
  apply (serialize_doc_no_dates (Some sample_record)
           (convert_dates (rename_id sample_record)) "created_at"
           (VStr "2024-03-09T08:05:00") Hs).
  vm_refl.
Defined.

(** X2: a record is serialized to itself exactly when it has no ["_id"]
    field and none of its values has an [isoformat] attribute. *)
Theorem serialize_doc_fixpoint (d : dict) :
  serialize_doc (Some d) = Some d
  ↔ d !! "_id" = None ∧ ∀ k v, d !! k = Some v → hasattr_isoformat v = false.
Proof.
  destruct (decide (d = ∅)) as [->|Hne].
  - split; [|done]. intros _. split; [apply lookup_empty|].
    intros k v Hk. by rewrite lookup_empty in Hk.
  - rewrite (serialize_doc_Some d Hne). split.
    + intros [= Heq].
      assert (d !! "_id" = None) as Hid.
      { rewrite <- Heq at 1. by rewrite lookup_fmap, rename_id_no_id. }
      split; [done|]. intros k v Hk.
      unfold rename_id in Heq. rewrite Hid in Heq.
      apply (f_equal (λ m : dict, m !! k)) in Heq.
      rewrite lookup_fmap, Hk in Heq. injection Heq as Heq.
      by apply convert_value_fixed.
    + intros [Hid Hv]. f_equal. unfold rename_id. rewrite Hid.
      apply map_eq. intros k. rewrite lookup_fmap.
      destruct (d !! k) as [v|] eqn:Hk; [|done]. simpl. f_equal.
      apply convert_value_fixed. by apply (Hv k).
Qed.

(** X3: the keys of the result are the keys of the input, with ["_id"]
    replaced by ["id"] when it is there. The result has one field fewer
    than the input exactly when the input had both ["_id"] and ["id"]. *)
Theorem serialize_doc_keys (d out : dict) :
  serialize_doc (Some d) = Some out →
  dom out = (if decide ("_id" ∈ dom d)
             then {["id"]} ∪ (dom d ∖ {["_id"]}) else dom d)
  ∧ size out = (if decide ("_id" ∈ dom d ∧ "id" ∈ dom d)
                then size d - 1 else size d).
Proof.
  intros Hs.
  destruct (serialize_doc_cases _ _ Hs) as [[[= ->] ->]|(d' & [= <-] & _ & ->)].
  - rewrite dom_empty_L, !decide_False; [done| |].
    + intros [H _]. by apply not_elem_of_empty in H.
    + apply not_elem_of_empty.
  - by rewrite dom_fmap_L, map_size_fmap, rename_id_dom, rename_id_size.
Qed.

Lemma serialize_doc_keys_witness :
  ∃ out : dict,
    serialize_doc (Some legacy_record) = Some out
    ∧ dom out = {["id"]} ∪ (dom legacy_record ∖ {["_id"]})
    ∧ size legacy_record = 6 ∧ size out = 5.
Proof.
  exists (convert_dates (rename_id legacy_record)).
  assert (serialize_doc (Some legacy_record)
          = Some (convert_dates (rename_id legacy_record))) as Hs
    by (vm_refl).
  destruct (serialize_doc_keys legacy_record _ Hs) as [Hdom Hsize].
  split; [exact Hs|]. split; [|split].
  - rewrite Hdom. apply decide_True. apply elem_of_dom.
    exists (VObjectId sample_oid). vm_refl.
  - vm_refl.
  - vm_refl.
Defined.

(** X4: the result is absent only for an absent input, and empty only for
    the empty record. *)
Theorem serialize_doc_shape (doc : option dict) :
  (serialize_doc doc = None ↔ doc = None)
  ∧ (serialize_doc doc = Some ∅ ↔ doc = Some ∅).
Proof.
  split.
  - split; [|by intros ->].
    destruct doc as [d|]; [|done].
    unfold serialize_doc. by destruct (falsy (Some d)).
  - split; [|by intros ->].
    intros Hs.
    destruct (serialize_doc_cases _ _ Hs) as [[-> _]|(d & -> & Hne & Heq)]; [done|].
    exfalso. symmetry in Heq. apply fmap_empty_iff in Heq.
    unfold rename_id in Heq. destruct (d !! "_id").
    + by apply insert_non_empty in Heq.
    + done.
Qed.

Lemma string_app_inv_head (s a b : string) : s +:+ a = s +:+ b → a = b.
Proof.
  induction s as [|c s IH]; [done|].
  intros [= H]. by apply IH.
Qed.

Lemma datetime_format_sep (dt : datetime) :
  datetime_format " " dt ≠ datetime_format "T" dt.
Proof.
  unfold datetime_format. intros H.
  do 5 apply string_app_inv_head in H.
  discriminate H.
Qed.

(** X5: the identifier is converted by [str], before the loop, and a [str]
    is not converted again: when ["_id"] holds a date, ["id"] is that date
    with a space between day and time, which is not its [isoformat] text. *)
Theorem serialize_doc_id_date (d : dict) (dt : datetime) :
  d !! "_id" = Some (VDatetime dt) →
  ∃ out : dict,
    serialize_doc (Some d) = Some out
    ∧ out !! "id" = Some (VStr (datetime_format " " dt))
    ∧ out !! "id" ≠ Some (VStr (isoformat dt)).
Proof.
  intros Hid.
  assert (d ≠ ∅) as Hne by (intros ->; by rewrite lookup_empty in Hid).
  eexists. split; [by apply serialize_doc_Some|].
  rewrite (rename_id_lookup_id d _ Hid), lookup_fmap, lookup_insert_eq.
  split; [done|]. simpl. intros [= H]. by apply datetime_format_sep in H.
Qed.

Lemma serialize_doc_id_date_witness :
  ∃ out : dict,
    serialize_doc (Some dated_id_record) = Some out
    ∧ out !! "id" = Some (VStr "2024-03-09 08:05:00")
    ∧ out !! "id" ≠ Some (VStr "2024-03-09T08:05:00").
Proof.
  apply (serialize_doc_id_date dated_id_record sample_created).
  vm_refl.
Defined.

(** ** More on [serialize_doc] on objects *)

(** X6: for the empty dict the result is the argument itself, not a copy:
    the same location is returned and nothing is allocated. *)
Theorem serialize_doc_obj_empty_alias (h : heap) (l : positive) :
  h !! l = Some ∅ →
  serialize_doc_obj (Some l) h = Some (Some l, h).
Proof.
  intros Hl. by rewrite (serialize_doc_obj_spec h l ∅ Hl).
Qed.

Lemma serialize_doc_obj_empty_alias_witness :
  serialize_doc_obj (Some 2%positive) sample_heap = Some (Some 2%positive, sample_heap).
Proof.
  apply (serialize_doc_obj_empty_alias sample_heap 2%positive).
  vm_refl.
Defined.

(** X7: for a non-empty dict exactly one object is allocated: the heap
    after the call has the locations it had and that of the result. *)
Theorem serialize_doc_obj_allocates_one (h h' : heap) (l : positive) (d : dict)
    (r : option positive) :
  h !! l = Some d →
  d ≠ ∅ →
  serialize_doc_obj (Some l) h = Some (r, h') →
  ∃ l', r = Some l' ∧ (l' ∉ dom h) ∧ dom h' = {[l']} ∪ dom h.
Proof.
  intros Hl Hne Hs. rewrite (serialize_doc_obj_spec h l d Hl) in Hs.
  destruct (falsy (Some d)) eqn:Hf; [by apply falsy_Some in Hf|].
  injection Hs as <- <-. eexists. split; [done|]. split.
  - apply is_fresh.
  - by rewrite dom_insert_L.
Qed.

Lemma serialize_doc_obj_allocates_one_witness :
  ∃ l', Some 3%positive = Some l' ∧ (l' ∉ dom sample_heap)
        ∧ dom (<[3%positive := convert_dates (rename_id sample_record)]> sample_heap)
          = {[l']} ∪ dom sample_heap.
Proof.
  apply (serialize_doc_obj_allocates_one sample_heap _ 1%positive sample_record).
  - vm_refl.
  - intros H. apply (f_equal (λ m : dict, m !! "title")) in H.
    vm_compute in H. discriminate H.
  - vm_refl.
Defined.

(** ** More on the handlers *)

Lemma serialize_doc_Some_clean (x : dict) :
  ∃ d : dict,
    serialize_doc (Some x) = Some d
    ∧ d !! "_id" = None
    ∧ ∀ k v, d !! k = Some v → hasattr_isoformat v = false.
Proof.
  destruct (decide (x = ∅)) as [->|Hne].
  - exists ∅. split; [done|]. split; [apply lookup_empty|].
    intros k v Hk. by rewrite lookup_empty in Hk.
  - eexists. split; [by apply serialize_doc_Some|]. split.
    + by rewrite lookup_fmap, rename_id_no_id.
    + intros k v Hk. rewrite lookup_fmap in Hk.
      destruct (rename_id x !! k) as [v0|]; [|done].
      injection Hk as <-. by destruct v0.
Qed.

Lemma list_products_Ok {S} (gw : Gateway S) (category : option string)
    (limit : option Z) (s s' : S) (out : list (option dict)) :
  list_products gw category limit s = (Ok out, s') →
  ∃ items,
    get_documents gw "product" (category_filter category) limit s = (Ok items, s')
    ∧ out = (λ x, serialize_doc (Some x)) <$> items.
Proof.
  unfold list_products, try_except. rewrite category_filter_code.
  unfold mbind, io_bind.
  destruct (get_documents gw "product" (category_filter category) limit s)
    as [[items|e] s1]; [|done].
  intros [= <- <-]. eauto.
Qed.

(** X8: every record list-products returns is a record (not null) without
    an ["_id"] field and without a value that has an [isoformat]
    attribute, whatever the gateway returned. *)
Theorem list_products_records_clean {S} (gw : Gateway S)
    (category : option string) (limit : option Z) (s s' : S)
    (out : list (option dict)) (o : option dict) :
  list_products gw category limit s = (Ok out, s') →
  o ∈ out →
  ∃ d : dict,
    o = Some d
    ∧ d !! "_id" = None
    ∧ ∀ k v, d !! k = Some v → hasattr_isoformat v = false.
Proof.
  intros Hl Ho.
  destruct (list_products_Ok gw _ _ _ _ _ Hl) as (items & _ & ->).
  apply list_elem_of_fmap in Ho as (x & -> & _).
  apply serialize_doc_Some_clean.
Qed.

Lemma list_products_records_clean_witness :
  ∃ d : dict,
    strength_response !! 1 = Some (Some d)
    ∧ d !! "_id" = None
    ∧ ∀ k v, d !! k = Some v → hasattr_isoformat v = false.
Proof.
  destruct (list_products_records_clean mem_gateway (Some "Strength") None
              seeded_store seeded_store strength_response
              (default None (strength_response !! 1)))
    as (d & Hd & Hclean).
  - vm_refl.
  - apply list_elem_of_lookup. exists 1. vm_refl.
  - exists d. split; [|exact Hclean].
    rewrite <- Hd. vm_refl.
Defined.

(** X9: the record at position [i] of the response carries, as text under
    ["id"], the identifier of the record the gateway returned at position
    [i]. *)
Theorem list_products_ids {S} (gw : Gateway S) (category : option string)
    (limit : option Z) (s s' : S) (items : list dict) (i : nat) (x : dict)
    (v : value) :
  get_documents gw "product" (category_filter category) limit s = (Ok items, s') →
  items !! i = Some x →
  x !! "_id" = Some v →
  ∃ (out : list (option dict)) (d : dict),
    list_products gw category limit s = (Ok out, s')
    ∧ out !! i = Some (Some d)
    ∧ d !! "id" = Some (VStr (py_str v)).
Proof.
  intros Hget Hi Hid.
  assert (x ≠ ∅) as Hne by (intros ->; by rewrite lookup_empty in Hid).
  exists ((λ x, serialize_doc (Some x)) <$> items), (convert_value <$> rename_id x).
  split; [|split].
  - unfold list_products. rewrite category_filter_code.
    apply try_except_Ok. erewrite io_bind_Ok; [reflexivity|exact Hget].
  - by rewrite list_lookup_fmap, Hi, <- (serialize_doc_Some x Hne).
  - by rewrite (rename_id_lookup_id x v Hid), lookup_fmap, lookup_insert_eq.
Qed.

Lemma list_products_ids_witness :
  ∃ (out : list (option dict)) (d : dict),
    list_products mem_gateway (Some "Strength") None seeded_store
    = (Ok out, seeded_store)
    ∧ out !! 1 = Some (Some d)
    ∧ d !! "id" = Some (VStr "000000000000000000000002").
Proof.
  apply (list_products_ids mem_gateway (Some "Strength") None seeded_store
           seeded_store strength_items 1
           (default ∅ (strength_items !! 1)) (VObjectId (oid_of_counter 2))).
  - vm_refl.
  - vm_refl.
  - vm_refl.
Defined.

(** X10: when the gateway creates the record, create-product has made
    that one call, on the ["product"] collection with the product it was
    given, and answers with the new identifier under ["id"] and nothing
    else. *)
Theorem create_product_returns_id {S} (gw : Gateway S) (p : Product)
    (s s' : S) (new_id : string) (log : list call) :
  create_document gw "product" p s = (Ok new_id, s') →
  ∃ resp : dict,
    create_product (spy gw) p (s, log)
    = (Ok resp, (s', log ++ [CallCreate "product" p]))
    ∧ resp !! "id" = Some (VStr new_id)
    ∧ dom resp = {["id"]}.
Proof.
  intros Hc. eexists. split; [|split].
  - unfold create_product. apply try_except_Ok.
    erewrite io_bind_Ok; [reflexivity|]. simpl. by rewrite Hc.
  - apply lookup_singleton_eq.
  - apply dom_singleton_L.
Qed.

Lemma create_product_returns_id_witness :
  ∃ resp : dict,
    create_product (spy mem_gateway) jump_rope (empty_store, [])
    = (Ok resp, ((create_product mem_gateway jump_rope empty_store).2,
                 [] ++ [CallCreate "product" jump_rope]))
    ∧ resp !! "id" = Some (VStr "000000000000000000000001")
    ∧ dom resp = {["id"]}.
Proof.
  apply (create_product_returns_id mem_gateway jump_rope empty_store).
  vm_refl.
Defined.


Lemma io_for_cons {S E A} (x : A) (xs : list A) (body : A → io S E unit) (s : S) :
  io_for (x :: xs) body s =
  match body x s with
  | (Ok _, s') => io_for xs body s'
  | (Raised e, s') => (Raised e, s')
  end.
Proof. reflexivity. Qed.





(** On the store that takes three records the fourth creation is the
    last call. *)
Example seed_small_store_calls :
  (seed_products (spy mem_gateway) (small_store, [])).2.2
  = CallList "product" ∅ (Some 1%Z)
    :: (CallCreate "product" <$> take 4 sample_products).
Proof. vm_refl. Qed.

(** A loop that raises: the items before the failing one were run, and
    the body raised on that one. *)
Lemma io_for_Raised_inv {S E A} (body : A → io S E unit) (xs : list A)
    (s s3 : S) (e : E) :
  io_for xs body s = (Raised e, s3) →
  ∃ before x rest s2,
    xs = before ++ x :: rest
    ∧ io_for before body s = (Ok (), s2)
    ∧ body x s2 = (Raised e, s3).
Proof.
  revert s. induction xs as [|y xs IH]; intros s H; [done|].
  rewrite io_for_cons in H.
  destruct (body y s) as [[[]|e'] s1] eqn:Hy.
  - destruct (IH s1 H) as (before & x & rest & s2 & -> & Hb & Hx).
    exists (y :: before), x, rest, s2. split; [done|]. split; [|done].
    by rewrite io_for_cons, Hy.
  - injection H as <- <-. by exists [], y, xs, s.
Qed.

Lemma create_unit_Raised_inv {S} (gw : Gateway S) (c : string) (p : Product)
    (s s' : S) (e : exn) :
  (create_document gw c p ;; mret ()) s = (Raised e, s') →
  create_document gw c p s = (Raised e, s').
Proof.
  unfold mbind, io_bind, mret, io_ret.
  destruct (create_document gw c p s) as [[i|e'] s1]; intros H;
    [discriminate H | by injection H as <- <-].
Qed.

(** X12: a handler raises only when a gateway call raised, and then with
    that failure's text: list-products when the listing raised,
    create-product when the creation raised, seed when its listing raised
    or when, after an empty listing and the creations before it, the
    creation of one sample product raised. The handler's state is the one
    the failing call left. *)
Theorem handlers_fail_only_on_gateway_failure {S} (gw : Gateway S)
    (x : handler_exn) :
  (∀ category limit s s',
     list_products gw category limit s = (Raised x, s') →
     ∃ e, get_documents gw "product" (category_filter category) limit s
          = (Raised e, s')
          ∧ x = HTTPException 500 (str_exn e))
  ∧ (∀ p s s',
       create_product gw p s = (Raised x, s') →
       ∃ e, create_document gw "product" p s = (Raised e, s')
            ∧ x = HTTPException 500 (str_exn e))
  ∧ (∀ s s',
       seed_products gw s = (Raised x, s') →
       ∃ e, x = HTTPException 500 (str_exn e)
            ∧ (get_documents gw "product" ∅ (Some 1%Z) s = (Raised e, s')
               ∨ ∃ s1 created p rest s2,
                   get_documents gw "product" ∅ (Some 1%Z) s = (Ok [], s1)
                   ∧ sample_products = created ++ p :: rest
                   ∧ io_for created
                       (λ p, create_document gw "product" p ;; mret ()) s1
                     = (Ok (), s2)
                   ∧ create_document gw "product" p s2 = (Raised e, s'))).
Proof.
  split; [|split].
  - intros category limit s s'. unfold list_products, try_except.
    rewrite category_filter_code. unfold mbind, io_bind.
    destruct (get_documents gw "product" (category_filter category) limit s)
      as [[items|e] s1]; [done|].
    intros [= <- <-]. by exists e.
  - intros p s s'. unfold create_product, try_except, mbind, io_bind.
    destruct (create_document gw "product" p s) as [[i|e] s1]; [done|].
    intros [= <- <-]. by exists e.
  - intros s s'. unfold seed_products, try_except.
    unfold mbind at 1, io_bind at 1.
    destruct (get_documents gw "product" ∅ (Some 1%Z) s)
      as [[[|d ds]|e] s1] eqn:Hget; cbn [list_truthy].
    + unfold mbind at 1, io_bind at 1.
      destruct (io_for sample_products _ s1) as [[[]|e] s3] eqn:Hloop; [done|].
      intros [= <- <-]. exists e. split; [done|]. right.
      destruct (io_for_Raised_inv _ _ _ _ _ Hloop)
        as (created & p & rest & s2 & Hsplit & Hcreated & Hp).
      exists s1, created, p, rest, s2. repeat split; try done.
      by apply create_unit_Raised_inv.
    + done.
    + intros [= <- <-]. exists e. split; [done|]. by left.
Qed.

Lemma handlers_fail_only_on_gateway_failure_witness :
  seed_products mem_gateway small_store
  = (Raised (HTTPException 500 "cannot insert: the store is full"),
     small_store_full)
  ∧ ∃ e, HTTPException 500 "cannot insert: the store is full"
         = HTTPException 500 (str_exn e)
         ∧ (get_documents mem_gateway "product" ∅ (Some 1%Z) small_store
            = (Raised e, small_store_full)
            ∨ ∃ s1 created p rest s2,
                get_documents mem_gateway "product" ∅ (Some 1%Z) small_store
                = (Ok [], s1)
                ∧ sample_products = created ++ p :: rest
                ∧ io_for created
                    (λ p, create_document mem_gateway "product" p ;; mret ()) s1
                  = (Ok (), s2)
                ∧ create_document mem_gateway "product" p s2
                  = (Raised e, small_store_full)).
Proof.
  assert (seed_products mem_gateway small_store
          = (Raised (HTTPException 500 "cannot insert: the store is full"),
             small_store_full)) as Hs by vm_refl.
  split; [exact Hs|].
  destruct (handlers_fail_only_on_gateway_failure mem_gateway
              (HTTPException 500 "cannot insert: the store is full"))
    as (_ & _ & Hseed).
  exact (Hseed small_store small_store_full Hs).
Defined.

(** ** More on the status check *)

Lemma str_take_all (n : nat) (s : string) :
  str_len s ≤ n → str_take n s = s.
Proof.
  revert n. induction s as [|c s IH]; intros n Hlen; [done|].
  simpl in *. destruct (is_continuation c).
  - f_equal. by apply IH.
  - destruct n as [|n]; [lia|]. f_equal. apply IH. lia.
Qed.

(** [str_len] counts the code points of a text. *)
Lemma str_len_decode_aux (m : nat) :
  ∀ (s : string) (cps : list N),
    String.length s ≤ m →
    utf8_decode s = Some cps →
    str_len s = length cps.
Proof.
  induction m as [|m IH]; intros s cps Hlen Hdec.
  - destruct s; [|simpl in Hlen; lia]. by injection Hdec as <-.
  - destruct s as [|c0 s1]; [by injection Hdec as <-|].
    cbn [utf8_decode] in Hdec. cbn [str_len].
    destruct (utf8_width c0) as [|[|[|[|[|w]]]]] eqn:Hw; try done.
    all: rewrite (utf8_width_lead c0) by (by rewrite Hw).
    + destruct (utf8_decode s1) as [cps1|] eqn:H1; [|done].
      injection Hdec as <-. simpl. f_equal.
      apply IH; [simpl in Hlen; lia | done].
    + destruct s1 as [|c1 s2]; [done|].
      destruct (is_continuation c1) eqn:Hc1; [|done].
      destruct (utf8_decode s2) as [cps2|] eqn:H2; [|done].
      injection Hdec as <-. cbn [str_len]. rewrite Hc1. simpl. f_equal.
      apply IH; [simpl in Hlen; lia | done].
    + destruct s1 as [|c1 [|c2 s3]]; [done..|].
      destruct (is_continuation c1) eqn:Hc1; [|done].
      destruct (is_continuation c2) eqn:Hc2; [|done].
      destruct (utf8_decode s3) as [cps3|] eqn:H3; [|done].
      injection Hdec as <-. cbn [str_len]. rewrite Hc1, Hc2. simpl. f_equal.
      apply IH; [simpl in Hlen; lia | done].
    + destruct s1 as [|c1 [|c2 [|c3 s4]]]; [done..|].
      destruct (is_continuation c1) eqn:Hc1; [|done].
      destruct (is_continuation c2) eqn:Hc2; [|done].
      destruct (is_continuation c3) eqn:Hc3; [|done].
      destruct (utf8_decode s4) as [cps4|] eqn:H4; [|done].
      injection Hdec as <-. cbn [str_len]. rewrite Hc1, Hc2, Hc3. simpl. f_equal.
      apply IH; [simpl in Hlen; lia | done].
Qed.

Lemma str_len_decode (s : string) (cps : list N) :
  utf8_decode s = Some cps → str_len s = length cps.
Proof. by apply (str_len_decode_aux (String.length s)). Qed.

Lemma env_truthy_spec (v : option string) :
  env_truthy v = true ↔ ∃ c s, v = Some (String c s).
Proof.
  destruct v as [[|c s]|]; simpl; split; try done; eauto.
  - by intros (? & ? & ?).
  - by intros (? & ? & ?).
Qed.

(** The response, field by field, for every handle and environment. *)
Lemma test_database_fields (db : option Database)
    (getenv : string → option string) :
  ∃ r : status,
    test_database db getenv = Ok r
    ∧ backend r = "✅ Running"
    ∧ database_url r
      = Some (if env_truthy (getenv "DATABASE_URL") then "✅ Set" else "❌ Not Set")
    ∧ database_name r
      = Some (if env_truthy (getenv "DATABASE_NAME") then "✅ Set" else "❌ Not Set")
    ∧ connection_status r
      = match db with
        | Some d =>
            match db_name d with
            | AttrRaises _ => "Not Connected"
            | _ => "Connected"
            end
        | None => "Not Connected"
        end
    ∧ collections r
      = match db with
        | Some d =>
            match db_name d, list_collection_names d with
            | AttrRaises _, _ => []
            | _, Ok names => take 10 names
            | _, Raised _ => []
            end
        | None => []
        end
    ∧ database r
      = match db with
        | Some d =>
            match db_name d, list_collection_names d with
            | AttrRaises e, _ => "❌ Error: " +:+ str_take 50 (str_exn e)
            | _, Ok _ => "✅ Connected & Working"
            | _, Raised e => "⚠️  Connected but Error: " +:+ str_take 50 (str_exn e)
            end
        | None => "⚠️  Available but not initialized"
        end.
Proof.
  destruct db as [[name names]|].
  - destruct name as [a| |e]; destruct names as [ns|e'];
      (eexists; split;
        [cbv -[take str_take str_exn env_truthy String.append]; reflexivity|]);
      repeat split.
  - eexists. split; [reflexivity|]. repeat split.
Qed.

(** X13: the two configuration fields of the status report tell whether
    the environment variables are set to a non-empty text, and nothing
    else: they are never null, and what the handler wrote in them from the
    handle is overwritten. *)
Theorem test_database_env_fields (db : option Database)
    (getenv : string → option string) (r : status) :
  test_database db getenv = Ok r →
  (database_url r = Some "✅ Set" ∨ database_url r = Some "❌ Not Set")
  ∧ (database_url r = Some "✅ Set" ↔ ∃ c s, getenv "DATABASE_URL" = Some (String c s))
  ∧ (database_name r = Some "✅ Set" ∨ database_name r = Some "❌ Not Set")
  ∧ (database_name r = Some "✅ Set" ↔ ∃ c s, getenv "DATABASE_NAME" = Some (String c s)).
Proof.
  intros Hr.
  destruct (test_database_fields db getenv) as (r' & Hr' & _ & Hurl & Hname & _).
  rewrite Hr in Hr'. injection Hr' as <-.
  rewrite Hurl, Hname, <- !env_truthy_spec.
  destruct (env_truthy (getenv "DATABASE_URL"));
    destruct (env_truthy (getenv "DATABASE_NAME"));
    repeat split; try (by left); try (by right); try done.
Qed.

Lemma test_database_env_fields_witness :
  test_database (Some healthy_db) sample_env = Ok sample_status
  ∧ sample_env "DATABASE_NAME" = Some ""
  ∧ database_url sample_status = Some "✅ Set"
  ∧ database_name sample_status = Some "❌ Not Set".
Proof.
  assert (test_database (Some healthy_db) sample_env = Ok sample_status) as Hr
    by (vm_refl).
  split; [exact Hr|]. split; [reflexivity|].
  destruct (test_database_env_fields (Some healthy_db) sample_env sample_status Hr)
    as (_ & Hurl & _ & _).
  split; [|reflexivity].
  apply Hurl. do 2 eexists. reflexivity.
Defined.

(** X14: the status report says ["Connected"] exactly when there is a
    handle and reading its name did not raise, also when listing the
    collections raised afterwards; otherwise it says ["Not Connected"]. *)
Theorem test_database_connection_status (db : option Database)
    (getenv : string → option string) (r : status) :
  test_database db getenv = Ok r →
  (connection_status r = "Connected" ∨ connection_status r = "Not Connected")
  ∧ (connection_status r = "Connected"
     ↔ ∃ d, db = Some d ∧ ∀ e, db_name d ≠ AttrRaises e).
Proof.
  intros Hr.
  destruct (test_database_fields db getenv)
    as (r' & Hr' & _ & _ & _ & Hcs & _).
  rewrite Hr in Hr'. injection Hr' as <-. rewrite Hcs.
  destruct db as [d|].
  - destruct (db_name d) as [a| |e] eqn:Hn.
    + split; [by left|]. split; [|done]. intros _. exists d. by rewrite Hn.
    + split; [by left|]. split; [|done]. intros _. exists d. by rewrite Hn.
    + split; [by right|]. split; [done|].
      intros (d' & [= <-] & Hne). by destruct (Hne e).
  - split; [by right|]. split; [done|]. by intros (d' & [=] & _).
Qed.

Lemma test_database_connection_status_witness :
  test_database (Some failing_db) no_env = Ok failing_status
  ∧ connection_status failing_status = "Connected".
Proof.
  assert (test_database (Some failing_db) no_env = Ok failing_status) as Hr
    by (vm_refl).
  split; [exact Hr|].
  destruct (test_database_connection_status (Some failing_db) no_env
              failing_status Hr) as [_ Hiff].
  apply Hiff. exists failing_db. split; [reflexivity|]. intros e. discriminate.
Defined.

(** X15: a listing of at most 10 names is reported whole, and names are
    reported only when the listing returned: the reported list is then its
    first names. *)
Theorem test_database_collections (db : option Database)
    (getenv : string → option string) (r : status) :
  test_database db getenv = Ok r →
  (∀ d names,
     db = Some d → (∀ e, db_name d ≠ AttrRaises e) →
     list_collection_names d = Ok names → length names ≤ 10 →
     collections r = names)
  ∧ (collections r ≠ [] →
     ∃ d names,
       db = Some d ∧ list_collection_names d = Ok names
       ∧ collections r `prefix_of` names).
Proof.
  intros Hr.
  destruct (test_database_fields db getenv)
    as (r' & Hr' & _ & _ & _ & _ & Hc & _).
  rewrite Hr in Hr'. injection Hr' as <-. rewrite Hc. split.
  - intros d names -> Hname Hnames Hlen. rewrite Hnames.
    destruct (db_name d) as [a| |e]; [by apply take_ge..|by destruct (Hname e)].
  - destruct db as [d|]; [|done].
    destruct (list_collection_names d) as [names|e'] eqn:Hl.
    + intros _. exists d, names. split; [done|]. split; [done|].
      destruct (db_name d); [apply prefix_take..|apply prefix_nil].
    + by destruct (db_name d).
Qed.

Lemma test_database_collections_witness :
  test_database (Some short_db) no_env = Ok short_status
  ∧ collections short_status = ["product"; "order"; "user"].
Proof.
  assert (test_database (Some short_db) no_env = Ok short_status) as Hr
    by (vm_refl).
  split; [exact Hr|].
  destruct (test_database_collections (Some short_db) no_env short_status Hr)
    as [Hall _].
  apply (Hall short_db); [reflexivity | intros e; discriminate | reflexivity |].
  simpl. lia.
Defined.

(** X16: a message of at most 50 characters (code points) is reported
    whole, whatever its length in bytes, for a listing that raised and for
    a handle whose name raised. *)
Theorem test_database_short_message (d : Database)
    (getenv : string → option string) (r : status) (e : exn) (cps : list N) :
  test_database (Some d) getenv = Ok r →
  utf8_decode (str_exn e) = Some cps →
  length cps ≤ 50 →
  (db_name d = AttrRaises e → database r = "❌ Error: " +:+ str_exn e)
  ∧ ((∀ e', db_name d ≠ AttrRaises e') → list_collection_names d = Raised e →
     database r = "⚠️  Connected but Error: " +:+ str_exn e).
Proof.
  intros Hr Hdec Hlen.
  assert (str_take 50 (str_exn e) = str_exn e) as Hall.
  { apply str_take_all. by rewrite (str_len_decode _ _ Hdec). }
  destruct (test_database_fields (Some d) getenv)
    as (r' & Hr' & _ & _ & _ & _ & _ & Hdb).
  rewrite Hr in Hr'. injection Hr' as <-. rewrite Hdb. split.
  - intros ->. by rewrite Hall.
  - intros Hname ->.
    destruct (db_name d) as [a| |e0]; [by rewrite Hall..|].
    by destruct (Hname e0).
Qed.

Lemma test_database_short_message_witness :
  test_database (Some timeout_db) no_env = Ok timeout_status
  ∧ String.length short_accented_message = 60
  ∧ database timeout_status
    = "⚠️  Connected but Error: éééééééééééééééééééééééééééééé".
Proof.
  assert (test_database (Some timeout_db) no_env = Ok timeout_status) as Hr
    by vm_refl.
  split; [exact Hr|]. split; [reflexivity|].
  destruct (test_database_short_message timeout_db no_env timeout_status
              (Exception "NetworkTimeout" short_accented_message)
              (replicate 30 233%N) Hr) as [_ H].
  - vm_refl.
  - simpl. lia.
  - apply H; [intros e'; discriminate | reflexivity].
Defined.

(** X17: the name of the handle never reaches the report: a handle with
    another name, or without a [name] attribute, gives the same report. *)
Theorem test_database_ignores_name (a b : string)
    (names : outcome exn (list string)) (getenv : string → option string) :
  test_database
    (Some {| db_name := AttrValue a; list_collection_names := names |}) getenv
  = test_database
      (Some {| db_name := AttrValue b; list_collection_names := names |}) getenv
  ∧ test_database
      (Some {| db_name := AttrValue a; list_collection_names := names |}) getenv
    = test_database
        (Some {| db_name := AttrMissing; list_collection_names := names |}) getenv.
Proof.
  destruct names as [ns|e];
    split; cbv -[take str_take str_exn env_truthy String.append]; reflexivity.
Qed.
